(** * Sampler: a fixed-capacity circular sample buffer

    Shallow embedding of [L3_Utils/sampler.hpp] (the class template
    [Sampler<TYPE>]) and the properties of its operations.

    The class keeps a heap array [mSamples] of [mSampleArraySize] slots, the
    index [mSampleIndex] of the slot written next and the flag
    [mAllSamplesReady].  The source performs no check of its own anywhere:
    the places where C++ leaves the behaviour open (a subscript outside the
    array, an integer division by zero, a negative array length) are made
    visible in the result type [outcome] below. *)

From Stdlib Require Import ZArith Lia Bool.
From stdpp Require Import base list.

Local Open Scope Z_scope.

(** ** Results of running a member function *)

(** The situations the C++ code can run into without guarding against them. *)
Inductive undefined : Type :=
  | DivideByZero      (* [a / 0] or [a % 0] on [int] *)
  | SignedOverflow    (* [INT_MIN / -1] or [INT_MIN % -1] *)
  | OutOfBounds       (* [mSamples[i]] with [i] outside the allocation *)
  | BadArrayLength.   (* [new TYPE[n]] with [n < 0] *)

(** [Ok v]: the call returns [v].  [Undefined u]: the call runs into [u];
    the source signals nothing in that case, the behaviour is simply not
    defined by the language. *)
Inductive outcome (A : Type) : Type :=
  | Ok (a : A)
  | Undefined (u : undefined).

Arguments Ok {A} a.
Arguments Undefined {A} u.

#[global] Instance outcome_ret : MRet outcome := fun A a => Ok a.

#[global] Instance outcome_bind : MBind outcome := fun A B f m =>
  match m with
  | Ok a => f a
  | Undefined u => Undefined u
  end.

(** Whether a call returned a value to its caller. *)
Definition returns {A} (m : outcome A) : bool :=
  match m with
  | Ok _ => true
  | Undefined _ => false
  end.

(** ** The C++ type [int] (32 bits, two's complement) *)

(** Values are mathematical integers between [INT_MIN] and [INT_MAX].
    Addition and subtraction wrap around modulo 2^32, which is what the
    two's-complement target computes; division and remainder follow C++
    (quotient truncated toward zero) and have no result for a zero divisor or
    for [INT_MIN / -1]. *)

Module CInt.

Definition INT_MIN : Z := -2147483648.
Definition INT_MAX : Z := 2147483647.
Definition modulus : Z := 4294967296.

Definition in_range (z : Z) : Prop := INT_MIN <= z <= INT_MAX.

(** Reduction of a mathematical integer to the representable range. *)
Definition wrap (z : Z) : Z := (z - INT_MIN) mod modulus + INT_MIN.

Definition add (a b : Z) : Z := wrap (a + b).
Definition sub (a b : Z) : Z := wrap (a - b).

(** [a / b]: truncation toward zero. *)
Definition div (a b : Z) : outcome Z :=
  if b =? 0 then Undefined DivideByZero
  else if (a =? INT_MIN) && (b =? -1) then Undefined SignedOverflow
  else Ok (Z.quot a b).

(** [a % b]: the remainder has the sign of [a]. *)
Definition rem (a b : Z) : outcome Z :=
  if b =? 0 then Undefined DivideByZero
  else if (a =? INT_MIN) && (b =? -1) then Undefined SignedOverflow
  else Ok (Z.rem a b).

End CInt.

(** ** Arrays *)

(** [arr[i]] as an rvalue. *)
Definition read {A} (arr : list A) (i : Z) : outcome A :=
  if 0 <=? i then
    match arr !! Z.to_nat i with
    | Some x => Ok x
    | None => Undefined OutOfBounds
    end
  else Undefined OutOfBounds.

(** [arr[i] = x]. *)
Definition write {A} (arr : list A) (i : Z) (x : A) : outcome (list A) :=
  if (0 <=? i) && (i <? Z.of_nat (length arr))
  then Ok (<[Z.to_nat i := x]> arr)
  else Undefined OutOfBounds.

(** [new A[n]]: [n] slots of indeterminate content; [junk k] stands for
    whatever the allocator left in slot [k]. *)
Definition new_array {A} (junk : nat -> A) (n : Z) : outcome (list A) :=
  if n <? 0 then Undefined BadArrayLength
  else Ok (map junk (seq 0 (Z.to_nat n))).

(** ** Counted loops *)

(** [count] iterations of [body], the counter starting at [i]. *)
Fixpoint for_from {A} (count : nat) (i : Z)
    (body : Z -> A -> outcome A) (acc : A) : outcome A :=
  match count with
  | O => Ok acc
  | S k => acc' ← body i acc; for_from k (i + 1) body acc'
  end.

(** [for (int i = 0; i < n; i++) body]: the counter never exceeds [n], which
    is itself an [int], so [i++] cannot overflow. *)
Definition for_upto {A} (n : Z) (body : Z -> A -> outcome A) (acc : A)
    : outcome A :=
  for_from (Z.to_nat n) 0 body acc.

(** ** The template parameter [TYPE] *)

(** What the class template uses of [TYPE]. *)
Class SampleType (TYPE : Type) : Type := {
  zero : TYPE;                          (* [TYPE x = 0] *)
  plus : TYPE -> TYPE -> TYPE;          (* [sum += x] *)
  over : TYPE -> Z -> outcome TYPE;     (* [sum / numSamples] *)
  less : TYPE -> TYPE -> bool;          (* [a < b] *)
  greater : TYPE -> TYPE -> bool        (* [a > b] *)
}.

(** [Sampler<int>], the instantiation of the class documentation. *)
#[global] Instance int_SampleType : SampleType Z := {|
  zero := 0;
  plus := CInt.add;
  over := CInt.div;
  less := Z.ltb;
  greater := Z.gtb
|}.

(** ** The class *)

Record Sampler (TYPE : Type) : Type := mkSampler {
  mSampleArraySize : Z;       (* Number of samples *)
  mSampleIndex : Z;           (* Index of next sample that will get stored *)
  mAllSamplesReady : bool;
  mSamples : list TYPE        (* Array of samples *)
}.

Arguments mkSampler {TYPE} _ _ _ _.
Arguments mSampleArraySize {TYPE} _.
Arguments mSampleIndex {TYPE} _.
Arguments mAllSamplesReady {TYPE} _.
Arguments mSamples {TYPE} _.

Section Sampler.

Context {TYPE : Type} `{SampleType TYPE}.

(** [Sampler(int numSamples)] *)
Definition Sampler_new (junk : nat -> TYPE) (numSamples : Z)
    : outcome (Sampler TYPE) :=
  fresh ← new_array junk numSamples;
  arr ← for_upto numSamples (fun i arr => write arr i zero) fresh;
  Ok (mkSampler numSamples 0 false arr).

Definition storeSample (sample : TYPE) (s : Sampler TYPE)
    : outcome (Sampler TYPE) :=
  arr ← write (mSamples s) (mSampleIndex s) sample;
  let idx := CInt.add (mSampleIndex s) 1 in
  if idx >=? mSampleArraySize s
  then Ok (mkSampler (mSampleArraySize s) 0 true arr)
  else Ok (mkSampler (mSampleArraySize s) idx (mAllSamplesReady s) arr).

Definition allSamplesReady (s : Sampler TYPE) : bool := mAllSamplesReady s.

Definition getMaxSampleCount (s : Sampler TYPE) : Z := mSampleArraySize s.

Definition getSampleCount (s : Sampler TYPE) : Z :=
  if mAllSamplesReady s then mSampleArraySize s else mSampleIndex s.

Definition getAverage (s : Sampler TYPE) : outcome TYPE :=
  let numSamples := getSampleCount s in
  sum ← for_upto numSamples
          (fun i sum => x ← read (mSamples s) i; Ok (plus sum x)) zero;
  over sum numSamples.

Definition getLatest (s : Sampler TYPE) : outcome TYPE :=
  let idx := if 0 =? mSampleIndex s
             then CInt.sub (mSampleArraySize s) 1
             else CInt.sub (mSampleIndex s) 1 in
  read (mSamples s) idx.

Definition getHighest (s : Sampler TYPE) : outcome TYPE :=
  let numSamples := getSampleCount s in
  first ← read (mSamples s) 0;
  for_upto numSamples
    (fun i highest =>
       x ← read (mSamples s) i;
       Ok (if less highest x then x else highest))
    first.

Definition getLowest (s : Sampler TYPE) : outcome TYPE :=
  let numSamples := getSampleCount s in
  first ← read (mSamples s) 0;
  for_upto numSamples
    (fun i lowest =>
       x ← read (mSamples s) i;
       Ok (if greater lowest x then x else lowest))
    first.

Definition getSampleNum (idx : Z) (s : Sampler TYPE) : outcome TYPE :=
  k ← CInt.rem idx (mSampleArraySize s);
  read (mSamples s) k.

Definition clear (s : Sampler TYPE) : Sampler TYPE :=
  mkSampler (mSampleArraySize s) 0 false (mSamples s).

(** A run of [storeSample] calls, oldest sample first. *)
Fixpoint storeSamples (samples : list TYPE) (s : Sampler TYPE)
    : outcome (Sampler TYPE) :=
  match samples with
  | [] => Ok s
  | x :: rest => s' ← storeSample x s; storeSamples rest s'
  end.

End Sampler.

(** ** Well-formed states *)

(** The state every member function expects: a positive capacity that fits in
    an [int], the write index inside the array, and an array of exactly
    [mSampleArraySize] slots. *)
Definition wf {TYPE} (s : Sampler TYPE) : Prop :=
  1 <= mSampleArraySize s <= CInt.INT_MAX
  /\ 0 <= mSampleIndex s < mSampleArraySize s
  /\ length (mSamples s) = Z.to_nat (mSampleArraySize s).

(** The states at which a fill cycle starts: right after construction, or
    right after [clear()]. *)
Inductive cycle_start {TYPE} `{SampleType TYPE} : Sampler TYPE -> Prop :=
  | after_construction junk numSamples s :
      1 <= numSamples <= CInt.INT_MAX ->
      Sampler_new junk numSamples = Ok s ->
      cycle_start s
  | after_clear s :
      wf s ->
      cycle_start (clear s).

(** The states a caller can bring a buffer into: construction with a
    capacity of at least 1, then any sequence of [storeSample] and [clear]
    calls.  All of them are well formed (lemma [reachable_wf]). *)
Inductive reachable {TYPE} `{SampleType TYPE} : Sampler TYPE -> Prop :=
  | reach_new junk numSamples s :
      1 <= numSamples <= CInt.INT_MAX ->
      Sampler_new junk numSamples = Ok s ->
      reachable s
  | reach_store x s s' :
      reachable s ->
      storeSample x s = Ok s' ->
      reachable s'
  | reach_clear s :
      reachable s ->
      reachable (clear s).

(** The mathematical sum of a run of [int] slots. *)
Definition slot_sum (l : list Z) : Z := foldr Z.add 0 l.

(** [k] is the first position of [l] holding its largest value [v]. *)
Definition first_maximum (l : list Z) (k : nat) (v : Z) : Prop :=
  l !! k = Some v
  /\ (forall j x, l !! j = Some x -> x <= v)
  /\ (forall j x, (j < k)%nat -> l !! j = Some x -> x < v).

(** [k] is the first position of [l] holding its smallest value [v]. *)
Definition first_minimum (l : list Z) (k : nat) (v : Z) : Prop :=
  l !! k = Some v
  /\ (forall j x, l !! j = Some x -> v <= x)
  /\ (forall j x, (j < k)%nat -> l !! j = Some x -> v < x).

(** What a buffer of capacity [c] still retains of the run [xs] of
    insertions: the last [c] samples of the run (all of it while it is
    shorter), oldest first. *)
Definition recent {A} (c : Z) (xs : list A) : list A :=
  drop (length xs - Z.to_nat c) xs.

(** [v] is the largest value of [l]. *)
Definition maximum_of (l : list Z) (v : Z) : Prop :=
  v ∈ l /\ forall x, x ∈ l -> x <= v.

(** [v] is the smallest value of [l]. *)
Definition minimum_of (l : list Z) (v : Z) : Prop :=
  v ∈ l /\ forall x, x ∈ l -> v <= x.

(** ** Arithmetic on [int] *)

Lemma wrap_in_range z : CInt.in_range z -> CInt.wrap z = z.
Proof.
  unfold CInt.in_range, CInt.wrap, CInt.INT_MIN, CInt.INT_MAX, CInt.modulus.
  intros Hz. rewrite Z.mod_small; lia.
Qed.

Lemma wrap_is_in_range z : CInt.in_range (CInt.wrap z).
Proof.
  unfold CInt.in_range, CInt.wrap, CInt.INT_MIN, CInt.INT_MAX, CInt.modulus.
  pose proof (Z.mod_pos_bound (z - -2147483648) 4294967296 eq_refl). lia.
Qed.

Lemma wrap_add_absorb a b : CInt.wrap (CInt.wrap a + b) = CInt.wrap (a + b).
Proof.
  unfold CInt.wrap. f_equal.
  replace ((a - CInt.INT_MIN) mod CInt.modulus + CInt.INT_MIN + b - CInt.INT_MIN)
    with ((a - CInt.INT_MIN) mod CInt.modulus + b) by lia.
  rewrite Zplus_mod_idemp_l. f_equal. lia.
Qed.

(** Accumulating with the wrapping [+=] gives the wrapped mathematical sum. *)
Lemma foldl_add_wrap l a :
  foldl CInt.add (CInt.wrap a) l = CInt.wrap (a + slot_sum l).
Proof.
  revert a. induction l as [|x l IH]; intros a; simpl.
  - f_equal. lia.
  - unfold CInt.add at 2. rewrite wrap_add_absorb, IH. f_equal. lia.
Qed.

Lemma div_by_count sum n :
  0 < n -> CInt.div sum n = Ok (Z.quot sum n).
Proof.
  intros Hn. unfold CInt.div.
  destruct (Z.eqb_spec n 0); [lia|].
  destruct (Z.eqb_spec n (-1)); [lia|].
  now rewrite andb_false_r.
Qed.

(** ** Array accesses *)

Lemma read_at {A} (arr : list A) (k : nat) :
  read arr (Z.of_nat k)
  = match arr !! k with Some x => Ok x | None => Undefined OutOfBounds end.
Proof.
  unfold read. destruct (Z.leb_spec 0 (Z.of_nat k)); [|lia].
  now rewrite Nat2Z.id.
Qed.

Lemma read_Some {A} (arr : list A) (i : Z) x :
  0 <= i -> arr !! Z.to_nat i = Some x -> read arr i = Ok x.
Proof.
  intros Hi Hx. unfold read. destruct (Z.leb_spec 0 i); [|lia]. now rewrite Hx.
Qed.

Lemma read_negative {A} (arr : list A) (i : Z) :
  i < 0 -> read arr i = Undefined OutOfBounds.
Proof. intros Hi. unfold read. destruct (Z.leb_spec 0 i); [lia|done]. Qed.

Lemma write_at {A} (arr : list A) (k : nat) x :
  (k < length arr)%nat -> write arr (Z.of_nat k) x = Ok (<[k := x]> arr).
Proof.
  intros Hk. unfold write.
  destruct (Z.leb_spec 0 (Z.of_nat k)); [|lia].
  destruct (Z.ltb_spec (Z.of_nat k) (Z.of_nat (length arr))); [|lia].
  simpl. now rewrite Nat2Z.id.
Qed.

(** ** Loops over an array *)

(** A loop that reads one slot per iteration folds over that run of slots. *)
Lemma for_from_read {A B} (f : B -> A -> B) (arr : list A) count :
  forall (k : nat) (acc : B),
    (k + count <= length arr)%nat ->
    for_from count (Z.of_nat k) (fun i a => x ← read arr i; Ok (f a x)) acc
    = Ok (foldl f acc (take count (drop k arr))).
Proof.
  induction count as [|count IH]; intros k acc Hlen; simpl.
  - reflexivity.
  - destruct (lookup_lt_is_Some_2 arr k) as [x Hx]; [lia|].
    rewrite read_at, Hx. simpl.
    replace (Z.of_nat k + 1) with (Z.of_nat (S k)) by lia.
    rewrite IH by lia.
    now rewrite (drop_S arr x k Hx).
Qed.

Lemma for_upto_read {A B} (f : B -> A -> B) (arr : list A) n acc :
  (Z.to_nat n <= length arr)%nat ->
  for_upto n (fun i a => x ← read arr i; Ok (f a x)) acc
  = Ok (foldl f acc (take (Z.to_nat n) arr)).
Proof.
  intros Hn. unfold for_upto.
  exact (for_from_read f arr (Z.to_nat n) 0%nat acc Hn).
Qed.

(** A loop that stores [v] into one slot per iteration overwrites that run
    of slots and nothing else. *)
Lemma for_from_fill {A} (v : A) count :
  forall (k : nat) (arr : list A),
    (k + count <= length arr)%nat ->
    for_from count (Z.of_nat k) (fun i a => write a i v) arr
    = Ok (take k arr ++ replicate count v ++ drop (k + count) arr).
Proof.
  induction count as [|count IH]; intros k arr Hlen; simpl.
  - rewrite Nat.add_0_r. now rewrite take_drop.
  - rewrite write_at by lia. simpl.
    replace (Z.of_nat k + 1) with (Z.of_nat (S k)) by lia.
    rewrite IH by (rewrite length_insert; lia).
    f_equal.
    rewrite take_insert_lt by lia.
    rewrite drop_insert_lt by lia.
    destruct (lookup_lt_is_Some_2 arr k) as [x Hx]; [lia|].
    rewrite (take_S_r arr k x Hx).
    rewrite insert_app_r_alt by (rewrite length_take; lia).
    rewrite length_take_le by lia. rewrite Nat.sub_diag. simpl.
    rewrite <- app_assoc. simpl.
    now replace (k + S count)%nat with (S (k + count)) by lia.
Qed.

(** ** The operations on well-formed states *)

Section SamplerFacts.

Context {TYPE : Type} `{SampleType TYPE}.

Implicit Types (s : Sampler TYPE) (x : TYPE) (xs : list TYPE).

(** Construction allocates [numSamples] slots and zero-fills all of them,
    whatever the allocator left there. *)
Lemma Sampler_new_ok junk numSamples :
  0 <= numSamples ->
  Sampler_new junk numSamples
  = Ok (mkSampler numSamples 0 false (replicate (Z.to_nat numSamples) zero)).
Proof.
  intros Hn. unfold Sampler_new, new_array.
  destruct (Z.ltb_spec numSamples 0); [lia|]. simpl.
  unfold for_upto.
  rewrite (for_from_fill zero (Z.to_nat numSamples) 0%nat)
    by (rewrite length_map, length_seq; lia).
  simpl. rewrite drop_ge by (rewrite length_map, length_seq; lia).
  now rewrite app_nil_r.
Qed.

Lemma Sampler_new_wf junk numSamples s :
  1 <= numSamples <= CInt.INT_MAX ->
  Sampler_new junk numSamples = Ok s ->
  wf s /\ mSampleIndex s = 0 /\ mAllSamplesReady s = false
  /\ mSampleArraySize s = numSamples.
Proof.
  intros Hn Hs. rewrite Sampler_new_ok in Hs by lia.
  injection Hs as <-. unfold wf. simpl.
  rewrite length_replicate. repeat split; lia.
Qed.

Lemma clear_wf s : wf s -> wf (clear s).
Proof. unfold wf, clear. simpl. intros (? & ? & ?). repeat split; lia. Qed.

Lemma cycle_start_inv s :
  cycle_start s ->
  wf s /\ mSampleIndex s = 0 /\ mAllSamplesReady s = false.
Proof.
  intros [junk n s0 Hn Hs | s0 Hwf].
  - destruct (Sampler_new_wf junk n s0 Hn Hs) as (? & ? & ? & ?). auto.
  - split; [now apply clear_wf | split; reflexivity].
Qed.

(** One insertion: the slot at the write index is overwritten, the index
    advances and falls back to 0 at the end of the array, where the flag
    is raised. *)
Lemma storeSample_ok x s :
  wf s ->
  storeSample x s
  = Ok (mkSampler (mSampleArraySize s)
          (if mSampleIndex s + 1 <? mSampleArraySize s
           then mSampleIndex s + 1 else 0)
          (if mSampleIndex s + 1 <? mSampleArraySize s
           then mAllSamplesReady s else true)
          (<[Z.to_nat (mSampleIndex s) := x]> (mSamples s))).
Proof.
  intros (Hsize & Hidx & Hlen). unfold storeSample, write.
  destruct (Z.leb_spec 0 (mSampleIndex s)); [|lia].
  destruct (Z.ltb_spec (mSampleIndex s) (Z.of_nat (length (mSamples s))));
    [|lia].
  simpl. unfold CInt.add.
  rewrite wrap_in_range
    by (unfold CInt.in_range, CInt.INT_MIN, CInt.INT_MAX in *; lia).
  destruct (Z.ltb_spec (mSampleIndex s + 1) (mSampleArraySize s)) as [Hlt|Hge].
  - destruct (Z.geb_spec (mSampleIndex s + 1) (mSampleArraySize s)); [lia|].
    reflexivity.
  - destruct (Z.geb_spec (mSampleIndex s + 1) (mSampleArraySize s)); [|lia].
    reflexivity.
Qed.

Lemma storeSample_wf x s s' :
  wf s -> storeSample x s = Ok s' ->
  wf s' /\ mSampleArraySize s' = mSampleArraySize s.
Proof.
  intros Hwf Hs. rewrite storeSample_ok in Hs by assumption.
  injection Hs as <-. destruct Hwf as (Hsize & Hidx & Hlen).
  unfold wf. simpl. rewrite length_insert.
  destruct (Z.ltb_spec (mSampleIndex s + 1) (mSampleArraySize s));
    repeat split; lia.
Qed.

Lemma storeSamples_app xs ys s :
  storeSamples (xs ++ ys) s = s' ← storeSamples xs s; storeSamples ys s'.
Proof.
  revert s. induction xs as [|x xs IH]; intros s; simpl; [reflexivity|].
  destruct (storeSample x s) as [s1|u]; simpl; [apply IH | reflexivity].
Qed.

(** Insertion never fails on a well-formed buffer, keeps it well formed and
    never lowers the flag. *)
Lemma storeSamples_wf xs :
  forall s, wf s ->
    exists s', storeSamples xs s = Ok s' /\ wf s'
      /\ mSampleArraySize s' = mSampleArraySize s
      /\ (mAllSamplesReady s = true -> mAllSamplesReady s' = true).
Proof.
  induction xs as [|x xs IH]; intros s Hwf; simpl.
  - exists s. auto.
  - pose proof (storeSample_ok x s Hwf) as Hst. rewrite Hst. simpl.
    destruct (storeSample_wf x s _ Hwf Hst) as [Hwf1 Hsz1].
    destruct (IH _ Hwf1) as (s' & Hs' & Hwf' & Hsz' & Hflag).
    exists s'. split; [exact Hs'|]. split; [exact Hwf'|].
    split; [simpl in Hsz'; lia|].
    intros Hready. apply Hflag. simpl. rewrite Hready.
    now destruct (_ <? _).
Qed.

(** While filling: the index counts the insertions and the flag is down. *)
Lemma storeSamples_filling xs :
  forall s, wf s -> mAllSamplesReady s = false ->
    mSampleIndex s + Z.of_nat (length xs) < mSampleArraySize s ->
    exists s', storeSamples xs s = Ok s' /\ wf s'
      /\ mSampleArraySize s' = mSampleArraySize s
      /\ mAllSamplesReady s' = false
      /\ mSampleIndex s' = mSampleIndex s + Z.of_nat (length xs).
Proof.
  induction xs as [|x xs IH]; intros s Hwf Hflag Hroom; simpl in *.
  - exists s. split; [reflexivity|]. split; [exact Hwf|].
    split; [reflexivity|]. split; [exact Hflag | lia].
  - pose proof (storeSample_ok x s Hwf) as Hst. rewrite Hst. simpl.
    destruct (storeSample_wf x s _ Hwf Hst) as [Hwf1 Hsz1].
    revert Hwf1 Hsz1 IH.
    destruct (Z.ltb_spec (mSampleIndex s + 1) (mSampleArraySize s)); [|lia].
    intros Hwf1 Hsz1 IH.
    destruct (IH _ Hwf1) as (s' & Hs' & Hwf' & Hsz' & Hflag' & Hidx');
      simpl in *; [assumption | lia |].
    exists s'. split; [exact Hs'|]. split; [exact Hwf'|].
    split; [lia|]. split; [exact Hflag' | lia].
Qed.

(** Once the insertions reach the end of the array the flag is up. *)
Lemma storeSamples_full xs :
  forall s, wf s ->
    mSampleArraySize s <= mSampleIndex s + Z.of_nat (length xs) ->
    exists s', storeSamples xs s = Ok s' /\ wf s'
      /\ mSampleArraySize s' = mSampleArraySize s
      /\ mAllSamplesReady s' = true.
Proof.
  induction xs as [|x xs IH]; intros s Hwf Hroom; simpl in *.
  - destruct Hwf as (? & ? & ?). lia.
  - pose proof (storeSample_ok x s Hwf) as Hst. rewrite Hst. simpl.
    destruct (storeSample_wf x s _ Hwf Hst) as [Hwf1 Hsz1].
    revert Hwf1 Hsz1 IH.
    destruct (Z.ltb_spec (mSampleIndex s + 1) (mSampleArraySize s));
      intros Hwf1 Hsz1 IH.
    + destruct (IH _ Hwf1) as (s' & Hs' & Hwf' & Hsz' & Hflag');
        simpl in *; [lia|].
      exists s'. auto.
    + destruct (storeSamples_wf xs _ Hwf1) as (s' & Hs' & Hwf' & Hsz' & Hflag').
      exists s'. simpl in *. auto.
Qed.

Lemma reachable_wf s : reachable s -> wf s.
Proof.
  induction 1 as [junk n s Hn Hs | x s s' _ IH Hs | s _ IH].
  - now destruct (Sampler_new_wf junk n s Hn Hs).
  - now destruct (storeSample_wf x s s' IH Hs).
  - now apply clear_wf.
Qed.

(** The slot read by [getLatest] is the one before the write index. *)
Lemma getLatest_slot s :
  wf s ->
  getLatest s
  = read (mSamples s)
      (if mSampleIndex s =? 0
       then mSampleArraySize s - 1 else mSampleIndex s - 1).
Proof.
  intros (Hsize & Hidx & Hlen). unfold getLatest, CInt.sub.
  rewrite Z.eqb_sym.
  destruct (Z.eqb_spec (mSampleIndex s) 0);
    (rewrite wrap_in_range;
     [reflexivity
     | unfold CInt.in_range, CInt.INT_MIN, CInt.INT_MAX in *; lia]).
Qed.

Lemma getLatest_storeSample x s :
  wf s ->
  exists s', storeSample x s = Ok s' /\ getLatest s' = Ok x.
Proof.
  intros Hwf. pose proof (storeSample_ok x s Hwf) as Hst.
  eexists. split; [exact Hst|].
  destruct (storeSample_wf x s _ Hwf Hst) as [Hwf1 _].
  rewrite getLatest_slot by exact Hwf1.
  destruct Hwf as (Hsize & Hidx & Hlen). simpl.
  destruct (Z.ltb_spec (mSampleIndex s + 1) (mSampleArraySize s)).
  - destruct (Z.eqb_spec (mSampleIndex s + 1) 0); [lia|].
    apply read_Some; [lia|].
    replace (mSampleIndex s + 1 - 1) with (mSampleIndex s) by lia.
    apply list_lookup_insert_eq. lia.
  - simpl. apply read_Some; [lia|].
    replace (mSampleArraySize s - 1) with (mSampleIndex s) by lia.
    apply list_lookup_insert_eq. lia.
Qed.

End SamplerFacts.

(** ** Scans of [Sampler<int>] *)

(** The running maximum kept by the loop of [getHighest]. *)
Lemma scan_highest (l : list Z) (a0 : Z) :
  l !! 0%nat = Some a0 ->
  forall n, (n < length l)%nat ->
    exists k,
      first_maximum (take (S n) l) k
        (foldl (fun highest x => if less highest x then x else highest)
           a0 (take (S n) l)).
Proof.
  intros H0 n. induction n as [|n IH]; intros Hn.
  - exists 0%nat. destruct l as [|y l]; [discriminate|].
    injection H0 as ->. simpl. rewrite Z.ltb_irrefl.
    split; [reflexivity|]. split.
    + intros [|j] x Hj; simpl in Hj; [injection Hj as <-; lia | discriminate].
    + intros j x Hj. lia.
  - destruct IH as (k & Hk & Hmax & Hfirst); [lia|].
    destruct (lookup_lt_is_Some_2 l (S n)) as [x Hx]; [lia|].
    rewrite (take_S_r l (S n) x Hx), foldl_snoc.
    set (h := foldl _ a0 (take (S n) l)) in *.
    assert (Hlen : length (take (S n) l) = S n) by (rewrite length_take; lia).
    simpl less. destruct (Z.ltb_spec h x) as [Hlt|Hge].
    + exists (S n). split; [|split].
      * rewrite lookup_app_r by lia. now rewrite Hlen, Nat.sub_diag.
      * intros j y Hj. apply lookup_app_Some in Hj as [Hj|[_ Hj]].
        -- specialize (Hmax j y Hj). lia.
        -- apply list_lookup_singleton_Some in Hj as [_ <-]. lia.
      * intros j y Hjk Hj. rewrite lookup_app_l in Hj by lia.
        specialize (Hmax j y Hj). lia.
    + exists k. split; [|split].
      * now apply lookup_app_l_Some.
      * intros j y Hj. apply lookup_app_Some in Hj as [Hj|[_ Hj]].
        -- exact (Hmax j y Hj).
        -- apply list_lookup_singleton_Some in Hj as [_ <-]. lia.
      * intros j y Hjk Hj. apply lookup_lt_Some in Hk.
        rewrite lookup_app_l in Hj by lia. exact (Hfirst j y Hjk Hj).
Qed.

(** The running minimum kept by the loop of [getLowest]. *)
Lemma scan_lowest (l : list Z) (a0 : Z) :
  l !! 0%nat = Some a0 ->
  forall n, (n < length l)%nat ->
    exists k,
      first_minimum (take (S n) l) k
        (foldl (fun lowest x => if greater lowest x then x else lowest)
           a0 (take (S n) l)).
Proof.
  intros H0 n. induction n as [|n IH]; intros Hn.
  - exists 0%nat. destruct l as [|y l]; [discriminate|].
    injection H0 as ->. simpl.
    rewrite Z.gtb_ltb, Z.ltb_irrefl.
    split; [reflexivity|]. split.
    + intros [|j] x Hj; simpl in Hj; [injection Hj as <-; lia | discriminate].
    + intros j x Hj. lia.
  - destruct IH as (k & Hk & Hmin & Hfirst); [lia|].
    destruct (lookup_lt_is_Some_2 l (S n)) as [x Hx]; [lia|].
    rewrite (take_S_r l (S n) x Hx), foldl_snoc.
    set (m := foldl _ a0 (take (S n) l)) in *.
    assert (Hlen : length (take (S n) l) = S n) by (rewrite length_take; lia).
    simpl greater. rewrite Z.gtb_ltb. destruct (Z.ltb_spec x m) as [Hlt|Hge].
    + exists (S n). split; [|split].
      * rewrite lookup_app_r by lia. now rewrite Hlen, Nat.sub_diag.
      * intros j y Hj. apply lookup_app_Some in Hj as [Hj|[_ Hj]].
        -- specialize (Hmin j y Hj). lia.
        -- apply list_lookup_singleton_Some in Hj as [_ <-]. lia.
      * intros j y Hjk Hj. rewrite lookup_app_l in Hj by lia.
        specialize (Hmin j y Hj). lia.
    + exists k. split; [|split].
      * now apply lookup_app_l_Some.
      * intros j y Hj. apply lookup_app_Some in Hj as [Hj|[_ Hj]].
        -- exact (Hmin j y Hj).
        -- apply list_lookup_singleton_Some in Hj as [_ <-]. lia.
      * intros j y Hjk Hj. apply lookup_lt_Some in Hk.
        rewrite lookup_app_l in Hj by lia. exact (Hfirst j y Hjk Hj).
Qed.

(** On a well-formed buffer the sample count never exceeds the array. *)
Lemma getSampleCount_bounds {TYPE} `{SampleType TYPE} (s : Sampler TYPE) :
  wf s -> 0 <= getSampleCount s <= mSampleArraySize s.
Proof.
  intros (Hsize & Hidx & Hlen). unfold getSampleCount.
  destruct (mAllSamplesReady s); lia.
Qed.

(** Side conditions on a concrete buffer: by evaluation. *)
Ltac concrete :=
  unfold wf, getSampleCount, getMaxSampleCount, allSamplesReady,
    CInt.INT_MAX, CInt.INT_MIN;
  cbn; repeat split; first [lia | reflexivity].

(** ** Statistics of [Sampler<int>] *)

(** C1.  On every buffer holding at least one sample, [getAverage] returns
    the sum of the physical slots [mSamples[0 .. getSampleCount()-1]] (reduced
    to an [int], as the accumulator is one) divided by [getSampleCount()]
    with truncation toward zero; when the sum fits in an [int] this is the
    plain quotient of the mathematical sum.  The slots are taken in storage
    order, not in order of insertion. *)
Theorem getAverage_physical_slots (s : Sampler Z) :
  wf s -> 0 < getSampleCount s ->
  let slots := take (Z.to_nat (getSampleCount s)) (mSamples s) in
  getAverage s = Ok (Z.quot (CInt.wrap (slot_sum slots)) (getSampleCount s))
  /\ (CInt.in_range (slot_sum slots) ->
      getAverage s = Ok (Z.quot (slot_sum slots) (getSampleCount s))).
Proof.
  intros Hwf Hpos slots.
  assert (Havg : getAverage s
                 = Ok (Z.quot (CInt.wrap (slot_sum slots)) (getSampleCount s))).
  { pose proof (getSampleCount_bounds s Hwf) as Hcount.
    destruct Hwf as (Hsize & Hidx & Hlen).
    unfold getAverage.
    rewrite (for_upto_read plus (mSamples s) (getSampleCount s) zero) by lia.
    cbn [mbind outcome_bind over plus zero int_SampleType].
    change 0 with (CInt.wrap 0) at 1.
    rewrite foldl_add_wrap, div_by_count by exact Hpos.
    reflexivity. }
  split; [exact Havg|].
  intros Hfit. rewrite Havg. now rewrite wrap_in_range.
Qed.

(** The scenario of C1: capacity 2 after inserting 10, 20, 30 has the slots
    [30; 20] and the average 25. *)
Lemma getAverage_physical_slots_witness :
  (s0 ← Sampler_new (fun _ => 77) 2; storeSamples [10; 20; 30] s0)
  = Ok (mkSampler 2 1 true [30; 20])
  /\ wf (mkSampler 2 1 true [30; 20])
  /\ 0 < getSampleCount (mkSampler 2 1 true [30; 20])
  /\ getAverage (mkSampler 2 1 true [30; 20]) = Ok 25.
Proof.
  assert (Hwf : wf (mkSampler 2 1 true [30; 20])) by concrete.
  assert (Hpos : 0 < getSampleCount (mkSampler 2 1 true [30; 20])) by concrete.
  split; [reflexivity|]. split; [exact Hwf|]. split; [exact Hpos|].
  exact (proj1 (getAverage_physical_slots _ Hwf Hpos)).
Defined.

(** C9.  On every buffer holding at least one sample, [getHighest]
    (respectively [getLowest]) returns the largest (respectively smallest)
    value of the physical slots [mSamples[0 .. getSampleCount()-1]]; the
    comparison being strict, the value kept is the one at the first position
    that holds it, every earlier slot being strictly smaller (respectively
    larger).  Both are functions of the buffer state alone, so that calls
    repeated on an unchanged buffer return the same result. *)
Theorem getHighest_getLowest_first_extremum (s : Sampler Z) :
  wf s -> 0 < getSampleCount s ->
  let slots := take (Z.to_nat (getSampleCount s)) (mSamples s) in
  exists kh high kl low,
    getHighest s = Ok high /\ first_maximum slots kh high
    /\ getLowest s = Ok low /\ first_minimum slots kl low.
Proof.
  intros Hwf Hpos slots.
  pose proof (getSampleCount_bounds s Hwf) as Hcount.
  destruct Hwf as (Hsize & Hidx & Hlen).
  destruct (lookup_lt_is_Some_2 (mSamples s) 0) as [a0 H0]; [lia|].
  assert (Hn : exists n, Z.to_nat (getSampleCount s) = S n
                         /\ (n < length (mSamples s))%nat).
  { exists (Z.to_nat (getSampleCount s - 1)). lia. }
  destruct Hn as (n & Hn & Hlt).
  destruct (scan_highest (mSamples s) a0 H0 n Hlt) as [kh Hhigh].
  destruct (scan_lowest (mSamples s) a0 H0 n Hlt) as [kl Hlow].
  subst slots. rewrite Hn.
  eexists kh, _, kl, _.
  split; [|split; [exact Hhigh|split; [|exact Hlow]]].
  - unfold getHighest. rewrite (read_Some (mSamples s) 0 a0) by (done || lia).
    cbn [mbind outcome_bind].
    rewrite (for_upto_read (fun highest x => if less highest x then x else highest))
      by lia.
    now rewrite Hn.
  - unfold getLowest. rewrite (read_Some (mSamples s) 0 a0) by (done || lia).
    cbn [mbind outcome_bind].
    rewrite (for_upto_read (fun lowest x => if greater lowest x then x else lowest))
      by lia.
    now rewrite Hn.
Qed.

(** C9 on a full buffer of capacity 4 whose largest value 9 sits in the
    slots 1 and 3 and whose smallest value 2 in the slots 0 and 2. *)
Lemma getHighest_getLowest_first_extremum_witness :
  wf (mkSampler 4 0 true [2; 9; 2; 9])
  /\ 0 < getSampleCount (mkSampler 4 0 true [2; 9; 2; 9])
  /\ exists kh high kl low,
       getHighest (mkSampler 4 0 true [2; 9; 2; 9]) = Ok high
       /\ first_maximum [2; 9; 2; 9] kh high
       /\ getLowest (mkSampler 4 0 true [2; 9; 2; 9]) = Ok low
       /\ first_minimum [2; 9; 2; 9] kl low.
Proof.
  assert (Hwf : wf (mkSampler 4 0 true [2; 9; 2; 9])) by concrete.
  assert (Hpos : 0 < getSampleCount (mkSampler 4 0 true [2; 9; 2; 9]))
    by concrete.
  split; [exact Hwf|]. split; [exact Hpos|].
  exact (getHighest_getLowest_first_extremum _ Hwf Hpos).
Defined.

(** C2, as the code has it.  The source has no error path: on a buffer
    holding no sample, [getHighest] and [getLowest] return the content of
    slot 0 as an ordinary result, and [getAverage] divides the sum 0 by the
    count 0, which nothing guards. *)
Theorem empty_statistics_unguarded (s : Sampler Z) :
  wf s -> getSampleCount s = 0 ->
  exists v,
    mSamples s !! 0%nat = Some v
    /\ getHighest s = Ok v
    /\ getLowest s = Ok v
    /\ getAverage s = Undefined DivideByZero.
Proof.
  intros (Hsize & Hidx & Hlen) Hzero.
  destruct (lookup_lt_is_Some_2 (mSamples s) 0) as [v Hv]; [lia|].
  exists v. split; [exact Hv|].
  unfold getHighest, getLowest, getAverage.
  rewrite Hzero, (read_Some (mSamples s) 0 v) by (done || lia).
  repeat split.
Qed.

Lemma empty_statistics_unguarded_witness :
  wf (mkSampler 2 0 false [0; 0])
  /\ getSampleCount (mkSampler 2 0 false [0; 0]) = 0
  /\ exists v,
       [0; 0] !! 0%nat = Some v
       /\ getHighest (mkSampler 2 0 false [0; 0]) = Ok v
       /\ getLowest (mkSampler 2 0 false [0; 0]) = Ok v
       /\ getAverage (mkSampler 2 0 false [0; 0]) = Undefined DivideByZero.
Proof.
  assert (Hwf : wf (mkSampler 2 0 false [0; 0])) by concrete.
  assert (Hzero : getSampleCount (mkSampler 2 0 false [0; 0]) = 0) by concrete.
  split; [exact Hwf|]. split; [exact Hzero|].
  exact (empty_statistics_unguarded _ Hwf Hzero).
Defined.

(** C2 as stated fails: capacity 2, insert 4 and 6, then [clear()].  The
    buffer holds no sample, yet [getHighest] and [getLowest] return the stale
    content 4 of slot 0 to the caller. *)
Lemma empty_statistics_return_stale_slot :
  (s0 ← Sampler_new (fun _ => 77) 2; storeSamples [4; 6] s0)
  = Ok (mkSampler 2 0 true [4; 6])
  /\ getSampleCount (clear (mkSampler 2 0 true [4; 6])) = 0
  /\ getHighest (clear (mkSampler 2 0 true [4; 6])) = Ok 4
  /\ getLowest (clear (mkSampler 2 0 true [4; 6])) = Ok 4
  /\ returns (getHighest (clear (mkSampler 2 0 true [4; 6]))) = true
  /\ returns (getLowest (clear (mkSampler 2 0 true [4; 6]))) = true.
Proof. repeat split. Qed.

(** ** Construction *)

(** C3, as the code has it.  The constructor checks nothing: every request
    [0 <= numSamples] succeeds with exactly that capacity, the write index 0,
    the flag down and [numSamples] zeroed slots; the capacity of the buffer
    is at least 1 exactly when the requested one was. *)
Theorem Sampler_new_keeps_requested_capacity {TYPE} `{SampleType TYPE}
    (junk : nat -> TYPE) (numSamples : Z) :
  0 <= numSamples ->
  exists s,
    Sampler_new junk numSamples = Ok s
    /\ getMaxSampleCount s = numSamples
    /\ mSampleIndex s = 0
    /\ allSamplesReady s = false
    /\ mSamples s = replicate (Z.to_nat numSamples) zero
    /\ (1 <= getMaxSampleCount s <-> 1 <= numSamples).
Proof.
  intros Hn. eexists. split; [apply Sampler_new_ok; exact Hn|].
  simpl. repeat split; auto.
Qed.

Lemma Sampler_new_keeps_requested_capacity_witness :
  0 <= 3
  /\ exists s : Sampler Z,
       Sampler_new (fun _ => 77) 3 = Ok s
       /\ getMaxSampleCount s = 3
       /\ mSampleIndex s = 0
       /\ allSamplesReady s = false
       /\ mSamples s = replicate (Z.to_nat 3) zero
       /\ (1 <= getMaxSampleCount s <-> 1 <= 3).
Proof.
  assert (Hn : 0 <= 3) by lia.
  split; [exact Hn|].
  exact (Sampler_new_keeps_requested_capacity (fun _ => 77) 3 Hn).
Defined.

(** C3 as stated fails: [Sampler<int>(0)] is constructed without any error
    and without clamping; its capacity is 0 and it has no slot at all. *)
Lemma Sampler_new_zero_capacity :
  Sampler_new (fun _ => 77) 0 = Ok (mkSampler 0 0 false [])
  /\ returns (Sampler_new (fun _ => 77) 0) = true
  /\ getMaxSampleCount (mkSampler 0 0 false ([] : list Z)) = 0.
Proof. repeat split. Qed.

(** C10.  Right after construction with a capacity of at least 1 the buffer
    holds no sample, and [getLatest] returns the zero of [TYPE]: it reads the
    last slot, which construction has zeroed like every other one.  Nothing
    is signalled. *)
Theorem getLatest_after_construction {TYPE} `{SampleType TYPE}
    (junk : nat -> TYPE) (numSamples : Z) :
  1 <= numSamples <= CInt.INT_MAX ->
  exists s,
    Sampler_new junk numSamples = Ok s
    /\ getSampleCount s = 0
    /\ mSamples s = replicate (Z.to_nat numSamples) zero
    /\ getLatest s = read (mSamples s) (numSamples - 1)
    /\ getLatest s = Ok zero.
Proof.
  intros Hn.
  pose proof (Sampler_new_ok junk numSamples ltac:(lia)) as Hnew.
  destruct (Sampler_new_wf junk numSamples _ Hn Hnew) as (Hwf & _).
  eexists. split; [exact Hnew|].
  rewrite (getLatest_slot _ Hwf). simpl.
  repeat split. apply read_Some; [lia|].
  apply lookup_replicate_2. lia.
Qed.

Lemma getLatest_after_construction_witness :
  1 <= 3 <= CInt.INT_MAX
  /\ exists s : Sampler Z,
       Sampler_new (fun _ => 77) 3 = Ok s
       /\ getSampleCount s = 0
       /\ mSamples s = replicate (Z.to_nat 3) zero
       /\ getLatest s = read (mSamples s) (3 - 1)
       /\ getLatest s = Ok zero.
Proof.
  assert (Hn : 1 <= 3 <= CInt.INT_MAX) by concrete.
  split; [exact Hn|].
  exact (getLatest_after_construction (fun _ => 77) 3 Hn).
Defined.

(** ** Insertion *)

(** C5.  A run of fewer insertions than the capacity, counted from
    construction or from the last [clear()], leaves the sample count equal to
    the number of insertions and the flag down. *)
Theorem getSampleCount_while_filling {TYPE} `{SampleType TYPE}
    (s0 : Sampler TYPE) (xs : list TYPE) :
  cycle_start s0 ->
  Z.of_nat (length xs) < getMaxSampleCount s0 ->
  exists s,
    storeSamples xs s0 = Ok s
    /\ getSampleCount s = Z.of_nat (length xs)
    /\ allSamplesReady s = false.
Proof.
  intros Hstart Hshort.
  destruct (cycle_start_inv s0 Hstart) as (Hwf & Hidx & Hflag).
  destruct (storeSamples_filling xs s0 Hwf Hflag) as (s & Hs & _ & _ & Hf & Hi).
  { unfold getMaxSampleCount in Hshort. lia. }
  exists s. split; [exact Hs|].
  unfold getSampleCount, allSamplesReady. rewrite Hf. split; [lia|reflexivity].
Qed.

Lemma getSampleCount_while_filling_witness :
  cycle_start (mkSampler 3 0 false [0; 0; 0])
  /\ Z.of_nat (length [5; 8]) < getMaxSampleCount (mkSampler 3 0 false [0; 0; 0])
  /\ exists s,
       storeSamples [5; 8] (mkSampler 3 0 false [0; 0; 0]) = Ok s
       /\ getSampleCount s = Z.of_nat (length [5; 8])
       /\ allSamplesReady s = false.
Proof.
  assert (Hstart : cycle_start (mkSampler 3 0 false [0; 0; 0])).
  { apply (after_construction (fun _ => 77) 3); [concrete | reflexivity]. }
  assert (Hshort : Z.of_nat (length [5; 8])
                   < getMaxSampleCount (mkSampler 3 0 false [0; 0; 0]))
    by concrete.
  split; [exact Hstart|]. split; [exact Hshort|].
  exact (getSampleCount_while_filling _ [5; 8] Hstart Hshort).
Defined.

(** C4.  Counted from construction or from the last [clear()], a run of
    insertions always succeeds, and the flag is up after it exactly when the
    run has at least as many insertions as the capacity: it rises at the
    insertion that completes the capacity, not before, and stays up under
    every further insertion.  [clear()] lowers it again. *)
Theorem allSamplesReady_from_capacity_on {TYPE} `{SampleType TYPE}
    (s0 : Sampler TYPE) (xs : list TYPE) :
  cycle_start s0 ->
  exists s,
    storeSamples xs s0 = Ok s
    /\ (allSamplesReady s = true
        <-> getMaxSampleCount s0 <= Z.of_nat (length xs))
    /\ allSamplesReady (clear s) = false.
Proof.
  intros Hstart.
  destruct (cycle_start_inv s0 Hstart) as (Hwf & Hidx & Hflag).
  unfold getMaxSampleCount, allSamplesReady.
  destruct (Z.le_gt_cases (mSampleArraySize s0) (Z.of_nat (length xs)))
    as [Hfull|Hshort].
  - destruct (storeSamples_full xs s0 Hwf) as (s & Hs & _ & _ & Hf); [lia|].
    exists s. split; [exact Hs|]. split; [tauto | reflexivity].
  - destruct (storeSamples_filling xs s0 Hwf Hflag) as (s & Hs & _ & _ & Hf & _);
      [lia|].
    exists s. split; [exact Hs|]. split; [|reflexivity].
    rewrite Hf. split; [discriminate | lia].
Qed.

Lemma allSamplesReady_from_capacity_on_witness :
  cycle_start (clear (mkSampler 2 1 true [30; 20]))
  /\ exists s,
       storeSamples [1; 2; 3] (clear (mkSampler 2 1 true [30; 20])) = Ok s
       /\ (allSamplesReady s = true
           <-> getMaxSampleCount (clear (mkSampler 2 1 true [30; 20]))
               <= Z.of_nat (length [1; 2; 3]))
       /\ allSamplesReady (clear s) = false.
Proof.
  assert (Hstart : cycle_start (clear (mkSampler 2 1 true [30; 20]))).
  { apply after_clear. concrete. }
  split; [exact Hstart|].
  exact (allSamplesReady_from_capacity_on _ [1; 2; 3] Hstart).
Defined.

(** C6.  After any run of insertions counted from construction or from the
    last [clear()], ending with the insertion of [x], [getLatest] returns
    [x], whether the buffer is full or not; the slot it reads is
    [mSampleIndex - 1], or the last slot of the array when [mSampleIndex] is
    0. *)
Theorem getLatest_most_recent {TYPE} `{SampleType TYPE}
    (s0 : Sampler TYPE) (xs : list TYPE) (x : TYPE) :
  cycle_start s0 ->
  exists s,
    storeSamples (xs ++ [x]) s0 = Ok s
    /\ getLatest s = Ok x
    /\ getLatest s
       = read (mSamples s)
           (if mSampleIndex s =? 0
            then mSampleArraySize s - 1 else mSampleIndex s - 1).
Proof.
  intros Hstart.
  destruct (cycle_start_inv s0 Hstart) as (Hwf & _).
  destruct (storeSamples_wf xs s0 Hwf) as (s1 & Hs1 & Hwf1 & _).
  destruct (getLatest_storeSample x s1 Hwf1) as (s & Hs & Hlatest).
  destruct (storeSample_wf x s1 s Hwf1 Hs) as [Hwfs _].
  exists s. split; [|split; [exact Hlatest|]].
  - rewrite storeSamples_app, Hs1. simpl. now rewrite Hs.
  - apply getLatest_slot, Hwfs.
Qed.

Lemma getLatest_most_recent_witness :
  cycle_start (mkSampler 2 0 false [0; 0])
  /\ exists s,
       storeSamples ([10; 20] ++ [30]) (mkSampler 2 0 false [0; 0]) = Ok s
       /\ getLatest s = Ok 30
       /\ getLatest s
          = read (mSamples s)
              (if mSampleIndex s =? 0
               then mSampleArraySize s - 1 else mSampleIndex s - 1).
Proof.
  assert (Hstart : cycle_start (mkSampler 2 0 false [0; 0])).
  { apply (after_construction (fun _ => 77) 2); [concrete | reflexivity]. }
  split; [exact Hstart|].
  exact (getLatest_most_recent _ [10; 20] 30 Hstart).
Defined.

(** ** Reset and direct slot access *)

(** C7.  [clear()] lowers the flag and rewinds the write index, and touches
    neither the array nor the capacity: [getSampleNum] answers for every
    index what it answered before. *)
Theorem clear_keeps_slots {TYPE} (s : Sampler TYPE) (idx : Z) :
  mAllSamplesReady (clear s) = false
  /\ mSampleIndex (clear s) = 0
  /\ mSamples (clear s) = mSamples s
  /\ getMaxSampleCount (clear s) = getMaxSampleCount s
  /\ getSampleNum idx (clear s) = getSampleNum idx s.
Proof. repeat split. Qed.

(** [getSampleNum] reduces its index with [%], whose result has the sign of
    the index: from 0 upwards the access is periodic in the capacity. *)
Lemma getSampleNum_periodic_from_zero {TYPE} (s : Sampler TYPE) (idx : Z) :
  wf s -> 0 <= idx ->
  getSampleNum (idx + mSampleArraySize s) s = getSampleNum idx s
  /\ returns (getSampleNum idx s) = true.
Proof.
  intros (Hsize & Hidx & Hlen) Hnonneg. unfold getSampleNum, CInt.rem.
  destruct (Z.eqb_spec (mSampleArraySize s) 0); [lia|].
  destruct (Z.eqb_spec (mSampleArraySize s) (-1)); [lia|].
  rewrite !andb_false_r.
  rewrite !Z.rem_mod_nonneg by lia.
  replace (idx + mSampleArraySize s) with (idx + 1 * mSampleArraySize s) by lia.
  rewrite Z_mod_plus_full. split; [reflexivity|].
  cbn [mbind outcome_bind].
  pose proof (Z.mod_pos_bound idx (mSampleArraySize s) ltac:(lia)) as Hk.
  destruct (lookup_lt_is_Some_2 (mSamples s)
              (Z.to_nat (idx mod mSampleArraySize s))) as [v Hv]; [lia|].
  now rewrite (read_Some _ _ v) by (done || lia).
Qed.

(** Below 0 the remainder is negative unless the index is a multiple of the
    capacity, and the subscript falls before the array. *)
Lemma getSampleNum_below_zero {TYPE} (s : Sampler TYPE) (idx : Z) :
  wf s -> idx < 0 -> Z.rem idx (mSampleArraySize s) <> 0 ->
  getSampleNum idx s = Undefined OutOfBounds.
Proof.
  intros (Hsize & Hidx & Hlen) Hneg Hrem. unfold getSampleNum, CInt.rem.
  destruct (Z.eqb_spec (mSampleArraySize s) 0); [lia|].
  destruct (Z.eqb_spec (mSampleArraySize s) (-1)); [lia|].
  rewrite andb_false_r. cbn [mbind outcome_bind].
  apply read_negative.
  pose proof (Z.rem_nonpos idx (mSampleArraySize s) ltac:(lia) ltac:(lia)).
  lia.
Qed.

(** C8 at the index -1: capacity 2 after inserting 10 and 20.  The index
    [-1 + 2] reads slot 1, while for the index -1 the remainder [-1 % 2] is
    -1 and [mSamples[-1]] lies outside the array. *)
Theorem getSampleNum_negative_index :
  (s0 ← Sampler_new (fun _ => 77) 2; storeSamples [10; 20] s0)
  = Ok (mkSampler 2 0 true [10; 20])
  /\ CInt.rem (-1) 2 = Ok (-1)
  /\ getSampleNum (-1) (mkSampler 2 0 true [10; 20]) = Undefined OutOfBounds
  /\ getSampleNum (-1 + 2) (mkSampler 2 0 true [10; 20]) = Ok 20.
Proof. repeat split. Qed.

(** ** The scenarios of the class documentation *)

(** [Sampler<int> samples(2); storeSample(10); storeSample(20);] *)
Example documented_usage :
  (s0 ← Sampler_new (fun _ => 77) 2; storeSamples [10; 20] s0)
  = Ok (mkSampler 2 0 true [10; 20])
  /\ getAverage (mkSampler 2 0 true [10; 20]) = Ok 15
  /\ getHighest (mkSampler 2 0 true [10; 20]) = Ok 20
  /\ getLowest (mkSampler 2 0 true [10; 20]) = Ok 10
  /\ getLatest (mkSampler 2 0 true [10; 20]) = Ok 20.
Proof. repeat split. Qed.

Example one_sample_of_three :
  (s0 ← Sampler_new (fun _ => 77) 3; storeSamples [5] s0)
  = Ok (mkSampler 3 1 false [5; 0; 0])
  /\ getSampleCount (mkSampler 3 1 false [5; 0; 0]) = 1
  /\ getAverage (mkSampler 3 1 false [5; 0; 0]) = Ok 5.
Proof. repeat split. Qed.

(** The quotient is truncated toward zero, not rounded down. *)
Example average_truncates_toward_zero :
  getAverage (mkSampler 2 0 true [-7; 2]) = Ok (-2).
Proof. reflexivity. Qed.

(** Ties: the scan keeps the value it met first. *)
Example extrema_with_ties :
  getHighest (mkSampler 4 0 true [2; 9; 2; 9]) = Ok 9
  /\ first_maximum [2; 9; 2; 9] 1 9
  /\ getLowest (mkSampler 4 0 true [2; 9; 2; 9]) = Ok 2
  /\ first_minimum [2; 9; 2; 9] 0 2.
Proof.
  split; [reflexivity|]. split; [|split; [reflexivity|]].
  - split; [reflexivity|]. split.
    + intros [|[|[|[|j]]]] x Hx; simpl in Hx; try discriminate;
        injection Hx as <-; lia.
    + intros [|j] x Hj Hx; [|lia]. injection Hx as <-. lia.
  - split; [reflexivity|]. split.
    + intros [|[|[|[|j]]]] x Hx; simpl in Hx; try discriminate;
        injection Hx as <-; lia.
    + intros j x Hj. lia.
Qed.

(** ** Runs of insertions *)

(** The write index after one more insertion, in terms of the number [n] of
    insertions made so far. *)
Lemma next_index n c :
  0 < c ->
  (if n mod c + 1 <? c then n mod c + 1 else 0) = (n + 1) mod c.
Proof.
  intros Hc. pose proof (Z.mod_pos_bound n c Hc) as Hr.
  rewrite <- (Zplus_mod_idemp_l n 1 c).
  destruct (Z.ltb_spec (n mod c + 1) c) as [Hlt|Hge].
  - rewrite (Z.mod_small (n mod c + 1)); lia.
  - replace (n mod c + 1) with c by lia. now rewrite Z_mod_same_full.
Qed.

(** Two insertions less than a capacity apart go to different slots. *)
Lemma mod_distinct a b c :
  0 < c -> 0 < a - b < c -> a mod c <> b mod c.
Proof.
  intros Hc Hab Heq.
  assert (Hz : (a - b) mod c = 0).
  { rewrite Zminus_mod, Heq, Z.sub_diag. apply Zmod_0_l. }
  rewrite Z.mod_small in Hz; lia.
Qed.

Section Runs.

Context {TYPE : Type} `{SampleType TYPE}.

Implicit Types (s : Sampler TYPE) (x : TYPE) (xs : list TYPE).

(** The state after a run [xs] of insertions that starts with the write index
    at 0: the index is the length of the run modulo the capacity, each of the
    last [capacity] samples sits in the slot given by its position in the run
    modulo the capacity, and the slots from the length of the run onwards are
    untouched. *)
Lemma storeSamples_window s0 :
  wf s0 -> mSampleIndex s0 = 0 ->
  forall xs, exists s,
    storeSamples xs s0 = Ok s
    /\ wf s
    /\ mSampleArraySize s = mSampleArraySize s0
    /\ mSampleIndex s = Z.of_nat (length xs) mod mSampleArraySize s0
    /\ (forall (j : nat) x,
          xs !! j = Some x ->
          Z.of_nat (length xs) <= Z.of_nat j + mSampleArraySize s0 ->
          mSamples s !! Z.to_nat (Z.of_nat j mod mSampleArraySize s0) = Some x)
    /\ (forall k : nat,
          (length xs <= k)%nat -> mSamples s !! k = mSamples s0 !! k).
Proof.
  intros Hwf0 Hidx0 xs. induction xs as [|x xs IH] using rev_ind.
  - exists s0. simpl. rewrite Zmod_0_l.
    repeat split; try tauto; try apply Hwf0. intros j x Hj. discriminate.
  - destruct IH as (s & Hs & Hwf & Hsize & Hidx & Hwin & Hrest).
    pose proof (storeSample_ok x s Hwf) as Hst.
    destruct (storeSample_wf x s _ Hwf Hst) as [Hwf1 Hsz1].
    eexists. split; [rewrite storeSamples_app, Hs; simpl; rewrite Hst; reflexivity|].
    split; [exact Hwf1|]. simpl.
    destruct Hwf as (Hc & Hi & Hlen).
    assert (Hpos : 0 < mSampleArraySize s0) by lia.
    pose proof (Z.mod_pos_bound (Z.of_nat (length xs)) _ Hpos) as Hr.
    rewrite length_app. simpl length.
    replace (Z.of_nat (length xs + 1)) with (Z.of_nat (length xs) + 1) by lia.
    split; [exact Hsize|]. split; [|split].
    + rewrite Hidx, Hsize. apply next_index, Hpos.
    + intros j y Hj Hnear. rewrite Hidx.
      apply lookup_snoc_Some in Hj as [[Hlt Hj]|[-> ->]].
      * rewrite list_lookup_insert_ne.
        -- apply (Hwin j y Hj). lia.
        -- intros Heq. apply Z2Nat.inj in Heq; try lia.
           ++ revert Heq. apply mod_distinct; lia.
           ++ apply Z.mod_pos_bound, Hpos.
      * apply list_lookup_insert_eq. lia.
    + intros k Hk. rewrite list_lookup_insert_ne; [apply Hrest; lia|].
      rewrite Hidx.
      pose proof (Z.mod_le (Z.of_nat (length xs)) _ ltac:(lia) Hpos). lia.
Qed.

End Runs.

Section RunFacts.

Context {TYPE : Type} `{SampleType TYPE}.

Implicit Types (s : Sampler TYPE) (x : TYPE) (xs : list TYPE).

(** From 0 upwards [getSampleNum] reads the slot [idx mod capacity]. *)
Lemma getSampleNum_slot s idx :
  wf s -> 0 <= idx ->
  getSampleNum idx s = read (mSamples s) (idx mod mSampleArraySize s).
Proof.
  intros (Hsize & Hidx & Hlen) Hnonneg. unfold getSampleNum, CInt.rem.
  destruct (Z.eqb_spec (mSampleArraySize s) 0); [lia|].
  destruct (Z.eqb_spec (mSampleArraySize s) (-1)); [lia|].
  rewrite andb_false_r, Z.rem_mod_nonneg by lia. reflexivity.
Qed.

(** The number of samples after a run that starts a fill cycle. *)
Lemma getSampleCount_after_run s0 xs s :
  wf s0 -> mSampleIndex s0 = 0 -> mAllSamplesReady s0 = false ->
  storeSamples xs s0 = Ok s ->
  getSampleCount s = Z.min (Z.of_nat (length xs)) (mSampleArraySize s0).
Proof.
  intros Hwf Hidx Hflag Hs. unfold getSampleCount.
  destruct (Z.le_gt_cases (mSampleArraySize s0) (Z.of_nat (length xs)))
    as [Hfull|Hshort].
  - destruct (storeSamples_full xs s0 Hwf) as (s' & Hs' & _ & Hsz & Hf); [lia|].
    rewrite Hs in Hs'. injection Hs' as <-. rewrite Hf. lia.
  - destruct (storeSamples_filling xs s0 Hwf Hflag) as (s' & Hs' & _ & _ & Hf & Hi);
      [lia|].
    rewrite Hs in Hs'. injection Hs' as <-. rewrite Hf. lia.
Qed.

(** While the run fits, the array holds the run followed by whatever the
    remaining slots held before. *)
Lemma mSamples_while_filling s0 xs s :
  wf s0 -> mSampleIndex s0 = 0 ->
  Z.of_nat (length xs) <= mSampleArraySize s0 ->
  storeSamples xs s0 = Ok s ->
  mSamples s = xs ++ drop (length xs) (mSamples s0).
Proof.
  intros Hwf Hidx Hfit Hs.
  destruct (storeSamples_window s0 Hwf Hidx xs)
    as (s' & Hs' & _ & _ & _ & Hwin & Hrest).
  rewrite Hs in Hs'. injection Hs' as <-.
  apply list_eq. intros i.
  destruct (Nat.lt_ge_cases i (length xs)) as [Hlt|Hge].
  - destruct (lookup_lt_is_Some_2 xs i Hlt) as [x Hx].
    rewrite (lookup_app_l_Some _ _ _ _ Hx).
    specialize (Hwin i x Hx ltac:(lia)).
    rewrite Z.mod_small, Nat2Z.id in Hwin by lia. exact Hwin.
  - rewrite (Hrest i Hge), lookup_app_r, lookup_drop by lia.
    f_equal. lia.
Qed.

(** Once the run has filled the array, reading the array from the write
    index on and around its end gives the last [capacity] samples, oldest
    first. *)
Lemma mSamples_when_full s0 xs s :
  wf s0 -> mSampleIndex s0 = 0 ->
  mSampleArraySize s0 <= Z.of_nat (length xs) ->
  storeSamples xs s0 = Ok s ->
  drop (Z.to_nat (mSampleIndex s)) (mSamples s)
  ++ take (Z.to_nat (mSampleIndex s)) (mSamples s)
  = recent (mSampleArraySize s0) xs.
Proof.
  intros Hwf Hidx Hfull Hs.
  destruct (storeSamples_window s0 Hwf Hidx xs)
    as (s' & Hs' & Hwfs & Hsz & Hi & Hwin & _).
  rewrite Hs in Hs'. injection Hs' as <-.
  destruct Hwfs as (Hc & Hir & Hlen). rewrite Hsz in *.
  set (c := mSampleArraySize s0) in *.
  set (n := Z.of_nat (length xs)) in *.
  set (r := mSampleIndex s) in *.
  assert (Hn : n = c * (n / c) + r) by (rewrite Hi; apply Z.div_mod; lia).
  unfold recent.
  apply (list_eq_same_length _ _ (Z.to_nat c)).
  - rewrite length_drop. lia.
  - rewrite length_app, length_drop, length_take. lia.
  - intros i y z Hic Hy Hz.
    rewrite lookup_drop in Hz.
    specialize (Hwin _ z Hz ltac:(lia)).
    assert (Hslot : mSamples s !! Z.to_nat ((r + Z.of_nat i) mod c) = Some z).
    { rewrite <- Hwin. do 2 f_equal.
      replace (Z.of_nat (length xs - Z.to_nat c + i))
        with (r + Z.of_nat i + (n / c - 1) * c) by lia.
      now rewrite Z_mod_plus_full. }
    apply lookup_app_Some in Hy as [Hy|[Hge Hy]].
    + rewrite lookup_drop in Hy.
      apply lookup_lt_Some in Hy as Hbound.
      rewrite Z.mod_small in Hslot by lia.
      replace (Z.to_nat (r + Z.of_nat i)) with (Z.to_nat r + i)%nat in Hslot
        by lia.
      congruence.
    + rewrite length_drop in Hge, Hy.
      apply lookup_take_Some in Hy as [Hy Hbound].
      replace ((r + Z.of_nat i) mod c) with (r + Z.of_nat i - c) in Hslot.
      * replace (Z.to_nat (r + Z.of_nat i - c))
          with (i - (length (mSamples s) - Z.to_nat r))%nat in Hslot by lia.
        congruence.
      * apply Z.mod_unique with (q := 1); lia.
Qed.

(** The slots the statistics run over hold the retained samples, up to their
    order. *)
Lemma counted_slots_recent s0 xs s :
  wf s0 -> mSampleIndex s0 = 0 -> mAllSamplesReady s0 = false ->
  storeSamples xs s0 = Ok s ->
  take (Z.to_nat (getSampleCount s)) (mSamples s)
  ≡ₚ recent (mSampleArraySize s0) xs.
Proof.
  intros Hwf Hidx Hflag Hs.
  rewrite (getSampleCount_after_run s0 xs s Hwf Hidx Hflag Hs).
  destruct (Z.le_gt_cases (mSampleArraySize s0) (Z.of_nat (length xs)))
    as [Hfull|Hshort].
  - rewrite <- (mSamples_when_full s0 xs s Hwf Hidx Hfull Hs).
    destruct (storeSamples_wf xs s0 Hwf) as (s' & Hs' & Hwfs & Hsz & _).
    rewrite Hs in Hs'. injection Hs' as <-.
    destruct Hwfs as (Hc & Hir & Hlen).
    rewrite Z.min_r, take_ge by lia.
    rewrite <- (take_drop (Z.to_nat (mSampleIndex s)) (mSamples s)) at 1.
    apply Permutation_app_comm.
  - rewrite (mSamples_while_filling s0 xs s Hwf Hidx ltac:(lia) Hs).
    rewrite Z.min_l, Nat2Z.id, take_app_length by lia.
    unfold recent. replace (length xs - _)%nat with 0%nat by lia.
    reflexivity.
Qed.

End RunFacts.

(** ** Further properties: every buffer a caller can build *)

(** X1.  Every buffer built by a construction with a capacity of at least 1
    followed by any sequence of [storeSample] and [clear] calls keeps the
    class invariant: the capacity is at least 1, the write index lies inside
    the array, the array has exactly [getMaxSampleCount()] slots, and the
    sample count lies between 0 and the capacity. *)
Theorem reachable_buffer_invariant {TYPE} `{SampleType TYPE}
    (s : Sampler TYPE) :
  reachable s ->
  1 <= getMaxSampleCount s <= CInt.INT_MAX
  /\ 0 <= mSampleIndex s < getMaxSampleCount s
  /\ length (mSamples s) = Z.to_nat (getMaxSampleCount s)
  /\ 0 <= getSampleCount s <= getMaxSampleCount s.
Proof.
  intros Hreach. pose proof (reachable_wf s Hreach) as Hwf.
  pose proof (getSampleCount_bounds s Hwf) as Hcount.
  destruct Hwf as (Hsize & Hidx & Hlen). unfold getMaxSampleCount. auto.
Qed.

Lemma reachable_buffer_invariant_witness :
  reachable (clear (mkSampler 2 1 false [10; 0]))
  /\ 1 <= getMaxSampleCount (clear (mkSampler 2 1 false [10; 0])) <= CInt.INT_MAX
  /\ 0 <= mSampleIndex (clear (mkSampler 2 1 false [10; 0]))
     < getMaxSampleCount (clear (mkSampler 2 1 false [10; 0]))
  /\ length (mSamples (clear (mkSampler 2 1 false [10; 0])))
     = Z.to_nat (getMaxSampleCount (clear (mkSampler 2 1 false [10; 0])))
  /\ 0 <= getSampleCount (clear (mkSampler 2 1 false [10; 0]))
     <= getMaxSampleCount (clear (mkSampler 2 1 false [10; 0])).
Proof.
  assert (Hreach : reachable (clear (mkSampler 2 1 false [10; 0]))).
  { apply reach_clear.
    apply (reach_store 10 (mkSampler 2 0 false [0; 0])); [|reflexivity].
    apply (reach_new (fun _ => 77) 2); [concrete | reflexivity]. }
  split; [exact Hreach|].
  exact (reachable_buffer_invariant _ Hreach).
Defined.

(** X2.  On every such buffer [storeSample], [getLatest], [getHighest],
    [getLowest] and, for an index of at least 0, [getSampleNum] stay inside
    the array and return. *)
Theorem reachable_operations_return {TYPE} `{SampleType TYPE}
    (s : Sampler TYPE) :
  reachable s ->
  (forall x, returns (storeSample x s) = true)
  /\ returns (getLatest s) = true
  /\ returns (getHighest s) = true
  /\ returns (getLowest s) = true
  /\ (forall idx, 0 <= idx -> returns (getSampleNum idx s) = true).
Proof.
  intros Hreach. pose proof (reachable_wf s Hreach) as Hwf.
  pose proof (getSampleCount_bounds s Hwf) as Hcount.
  assert (Hread : forall i, 0 <= i < mSampleArraySize s ->
                    exists v, read (mSamples s) i = Ok v).
  { intros i Hi. destruct Hwf as (Hsize & Hidx & Hlen).
    destruct (lookup_lt_is_Some_2 (mSamples s) (Z.to_nat i)) as [v Hv]; [lia|].
    exists v. apply read_Some; [lia | exact Hv]. }
  split; [|split; [|split; [|split]]].
  - intros x. now rewrite (storeSample_ok x s Hwf).
  - rewrite (getLatest_slot s Hwf).
    destruct (Hread (if mSampleIndex s =? 0 then mSampleArraySize s - 1
                     else mSampleIndex s - 1)) as [v ->]; [|reflexivity].
    destruct Hwf as (Hsize & Hidx & Hlen).
    destruct (Z.eqb_spec (mSampleIndex s) 0); lia.
  - unfold getHighest. destruct (Hread 0) as [v ->].
    { destruct Hwf as (Hsize & _). lia. }
    cbn [mbind outcome_bind].
    rewrite (for_upto_read (fun highest x => if less highest x then x else highest));
      [reflexivity|].
    destruct Hwf as (Hsize & Hidx & Hlen). lia.
  - unfold getLowest. destruct (Hread 0) as [v ->].
    { destruct Hwf as (Hsize & _). lia. }
    cbn [mbind outcome_bind].
    rewrite (for_upto_read (fun lowest x => if greater lowest x then x else lowest));
      [reflexivity|].
    destruct Hwf as (Hsize & Hidx & Hlen). lia.
  - intros idx Hidx. rewrite (getSampleNum_slot s idx Hwf Hidx).
    destruct (Hread (idx mod mSampleArraySize s)) as [v ->]; [|reflexivity].
    apply Z.mod_pos_bound. destruct Hwf as (Hsize & _). lia.
Qed.

Lemma reachable_operations_return_witness :
  reachable (mkSampler 2 1 false [10; 0])
  /\ (forall x, returns (storeSample x (mkSampler 2 1 false [10; 0])) = true)
  /\ returns (getLatest (mkSampler 2 1 false [10; 0])) = true
  /\ returns (getHighest (mkSampler 2 1 false [10; 0])) = true
  /\ returns (getLowest (mkSampler 2 1 false [10; 0])) = true
  /\ (forall idx, 0 <= idx ->
        returns (getSampleNum idx (mkSampler 2 1 false [10; 0])) = true).
Proof.
  assert (Hreach : reachable (mkSampler 2 1 false [10; 0])).
  { apply (reach_store 10 (mkSampler 2 0 false [0; 0])); [|reflexivity].
    apply (reach_new (fun _ => 77) 2); [concrete | reflexivity]. }
  split; [exact Hreach|].
  exact (reachable_operations_return _ Hreach).
Defined.

(** X3.  One [storeSample] on a well-formed buffer returns, leaves the
    capacity alone, raises the sample count by one up to the capacity, puts
    the sample into the slot at the former write index, and leaves every
    other slot as it was. *)
Theorem storeSample_writes_one_slot {TYPE} `{SampleType TYPE}
    (s : Sampler TYPE) (x : TYPE) :
  wf s ->
  exists s',
    storeSample x s = Ok s'
    /\ getMaxSampleCount s' = getMaxSampleCount s
    /\ getSampleCount s' = Z.min (getSampleCount s + 1) (getMaxSampleCount s)
    /\ getSampleNum (mSampleIndex s) s' = Ok x
    /\ (forall k, 0 <= k < getMaxSampleCount s -> k <> mSampleIndex s ->
          getSampleNum k s' = getSampleNum k s).
Proof.
  intros Hwf. pose proof (storeSample_ok x s Hwf) as Hst.
  destruct (storeSample_wf x s _ Hwf Hst) as [Hwf1 Hsz1].
  eexists. split; [exact Hst|].
  destruct Hwf as (Hsize & Hidx & Hlen).
  unfold getMaxSampleCount. split; [reflexivity|]. split; [|split].
  - unfold getSampleCount. simpl.
    destruct (Z.ltb_spec (mSampleIndex s + 1) (mSampleArraySize s));
      destruct (mAllSamplesReady s); lia.
  - rewrite (getSampleNum_slot _ _ Hwf1) by lia. simpl.
    rewrite Z.mod_small by lia.
    apply read_Some; [lia|]. apply list_lookup_insert_eq. lia.
  - intros k Hk Hne.
    rewrite (getSampleNum_slot _ _ Hwf1) by lia.
    rewrite (getSampleNum_slot s k) by (unfold wf; lia). simpl.
    rewrite Z.mod_small by lia. unfold read.
    rewrite list_lookup_insert_ne by lia. reflexivity.
Qed.

Lemma storeSample_writes_one_slot_witness :
  wf (mkSampler 3 1 true [7; 8; 9])
  /\ exists s',
       storeSample 5 (mkSampler 3 1 true [7; 8; 9]) = Ok s'
       /\ getMaxSampleCount s' = getMaxSampleCount (mkSampler 3 1 true [7; 8; 9])
       /\ getSampleCount s'
          = Z.min (getSampleCount (mkSampler 3 1 true [7; 8; 9]) + 1)
              (getMaxSampleCount (mkSampler 3 1 true [7; 8; 9]))
       /\ getSampleNum (mSampleIndex (mkSampler 3 1 true [7; 8; 9])) s' = Ok 5
       /\ (forall k,
             0 <= k < getMaxSampleCount (mkSampler 3 1 true [7; 8; 9]) ->
             k <> mSampleIndex (mkSampler 3 1 true [7; 8; 9]) ->
             getSampleNum k s' = getSampleNum k (mkSampler 3 1 true [7; 8; 9])).
Proof.
  assert (Hwf : wf (mkSampler 3 1 true [7; 8; 9])) by concrete.
  split; [exact Hwf|].
  exact (storeSample_writes_one_slot _ 5 Hwf).
Defined.

(** ** Further properties: runs of insertions *)

(** X4.  After a run of [n] insertions counted from construction or from the
    last [clear()], the capacity is unchanged, the write index is [n] modulo
    the capacity and the sample count is the smaller of [n] and the
    capacity. *)
Theorem write_index_and_count_after_run {TYPE} `{SampleType TYPE}
    (s0 : Sampler TYPE) (xs : list TYPE) :
  cycle_start s0 ->
  exists s,
    storeSamples xs s0 = Ok s
    /\ getMaxSampleCount s = getMaxSampleCount s0
    /\ mSampleIndex s = Z.of_nat (length xs) mod getMaxSampleCount s0
    /\ getSampleCount s = Z.min (Z.of_nat (length xs)) (getMaxSampleCount s0).
Proof.
  intros Hstart.
  destruct (cycle_start_inv s0 Hstart) as (Hwf & Hidx & Hflag).
  destruct (storeSamples_window s0 Hwf Hidx xs) as (s & Hs & _ & Hsz & Hi & _).
  exists s. unfold getMaxSampleCount.
  split; [exact Hs|]. split; [exact Hsz|]. split; [exact Hi|].
  exact (getSampleCount_after_run s0 xs s Hwf Hidx Hflag Hs).
Qed.

Lemma write_index_and_count_after_run_witness :
  cycle_start (mkSampler 3 0 false [0; 0; 0])
  /\ exists s,
       storeSamples [1; 2; 3; 4; 5] (mkSampler 3 0 false [0; 0; 0]) = Ok s
       /\ getMaxSampleCount s = getMaxSampleCount (mkSampler 3 0 false [0; 0; 0])
       /\ mSampleIndex s
          = Z.of_nat (length [1; 2; 3; 4; 5])
            mod getMaxSampleCount (mkSampler 3 0 false [0; 0; 0])
       /\ getSampleCount s
          = Z.min (Z.of_nat (length [1; 2; 3; 4; 5]))
              (getMaxSampleCount (mkSampler 3 0 false [0; 0; 0])).
Proof.
  assert (Hstart : cycle_start (mkSampler 3 0 false [0; 0; 0])).
  { apply (after_construction (fun _ => 77) 3); [concrete | reflexivity]. }
  split; [exact Hstart|].
  exact (write_index_and_count_after_run _ [1; 2; 3; 4; 5] Hstart).
Defined.

(** X5.  Numbering the insertions of a run from 0, [getSampleNum(j)] returns
    the sample of insertion [j] for every [j] among the last [capacity]
    insertions of the run: these are the samples the buffer retains, older
    ones have been overwritten. *)
Theorem getSampleNum_recent_insertion {TYPE} `{SampleType TYPE}
    (s0 : Sampler TYPE) (xs : list TYPE) (j : nat) (x : TYPE) :
  cycle_start s0 ->
  xs !! j = Some x ->
  Z.of_nat (length xs) <= Z.of_nat j + getMaxSampleCount s0 ->
  exists s,
    storeSamples xs s0 = Ok s
    /\ getSampleNum (Z.of_nat j) s = Ok x.
Proof.
  intros Hstart Hj Hnear.
  destruct (cycle_start_inv s0 Hstart) as (Hwf & Hidx & _).
  destruct (storeSamples_window s0 Hwf Hidx xs)
    as (s & Hs & Hwfs & Hsz & _ & Hwin & _).
  exists s. split; [exact Hs|].
  rewrite (getSampleNum_slot s _ Hwfs) by lia. rewrite Hsz.
  apply read_Some; [|exact (Hwin j x Hj Hnear)].
  apply Z.mod_pos_bound. destruct Hwf as (Hsize & _). lia.
Qed.

Lemma getSampleNum_recent_insertion_witness :
  cycle_start (mkSampler 3 0 false [0; 0; 0])
  /\ [1; 2; 3; 4; 5] !! 3%nat = Some 4
  /\ Z.of_nat (length [1; 2; 3; 4; 5])
     <= Z.of_nat 3 + getMaxSampleCount (mkSampler 3 0 false [0; 0; 0])
  /\ exists s,
       storeSamples [1; 2; 3; 4; 5] (mkSampler 3 0 false [0; 0; 0]) = Ok s
       /\ getSampleNum (Z.of_nat 3) s = Ok 4.
Proof.
  assert (Hstart : cycle_start (mkSampler 3 0 false [0; 0; 0])).
  { apply (after_construction (fun _ => 77) 3); [concrete | reflexivity]. }
  assert (Hj : [1; 2; 3; 4; 5] !! 3%nat = Some 4) by reflexivity.
  assert (Hnear : Z.of_nat (length [1; 2; 3; 4; 5])
                  <= Z.of_nat 3
                     + getMaxSampleCount (mkSampler 3 0 false [0; 0; 0]))
    by concrete.
  split; [exact Hstart|]. split; [exact Hj|]. split; [exact Hnear|].
  exact (getSampleNum_recent_insertion _ _ 3%nat 4 Hstart Hj Hnear).
Defined.

(** X6.  While a run is no longer than the capacity, the array holds the
    samples of the run in order of insertion from slot 0 on, and the slots
    behind them keep what they held when the run started: zero after
    construction, stale samples after [clear()]. *)
Theorem slots_while_filling {TYPE} `{SampleType TYPE}
    (s0 : Sampler TYPE) (xs : list TYPE) :
  cycle_start s0 ->
  Z.of_nat (length xs) <= getMaxSampleCount s0 ->
  exists s,
    storeSamples xs s0 = Ok s
    /\ mSamples s = xs ++ drop (length xs) (mSamples s0).
Proof.
  intros Hstart Hfit.
  destruct (cycle_start_inv s0 Hstart) as (Hwf & Hidx & _).
  destruct (storeSamples_wf xs s0 Hwf) as (s & Hs & _).
  exists s. split; [exact Hs|].
  exact (mSamples_while_filling s0 xs s Hwf Hidx Hfit Hs).
Qed.

Lemma slots_while_filling_witness :
  cycle_start (clear (mkSampler 3 0 true [7; 8; 9]))
  /\ Z.of_nat (length [1; 2])
     <= getMaxSampleCount (clear (mkSampler 3 0 true [7; 8; 9]))
  /\ exists s,
       storeSamples [1; 2] (clear (mkSampler 3 0 true [7; 8; 9])) = Ok s
       /\ mSamples s
          = [1; 2] ++ drop (length [1; 2])
                        (mSamples (clear (mkSampler 3 0 true [7; 8; 9]))).
Proof.
  assert (Hstart : cycle_start (clear (mkSampler 3 0 true [7; 8; 9]))).
  { apply after_clear. concrete. }
  assert (Hfit : Z.of_nat (length [1; 2])
                 <= getMaxSampleCount (clear (mkSampler 3 0 true [7; 8; 9])))
    by concrete.
  split; [exact Hstart|]. split; [exact Hfit|].
  exact (slots_while_filling _ [1; 2] Hstart Hfit).
Defined.

(** X7.  Once a run has at least as many insertions as the capacity, the
    array read from the write index to its end and then from slot 0 up to the
    write index holds exactly the last [capacity] samples of the run, oldest
    first: each insertion overwrites the oldest retained sample. *)
Theorem slots_from_write_index_when_full {TYPE} `{SampleType TYPE}
    (s0 : Sampler TYPE) (xs : list TYPE) :
  cycle_start s0 ->
  getMaxSampleCount s0 <= Z.of_nat (length xs) ->
  exists s,
    storeSamples xs s0 = Ok s
    /\ drop (Z.to_nat (mSampleIndex s)) (mSamples s)
       ++ take (Z.to_nat (mSampleIndex s)) (mSamples s)
       = recent (getMaxSampleCount s0) xs.
Proof.
  intros Hstart Hfull.
  destruct (cycle_start_inv s0 Hstart) as (Hwf & Hidx & _).
  destruct (storeSamples_wf xs s0 Hwf) as (s & Hs & _).
  exists s. split; [exact Hs|].
  exact (mSamples_when_full s0 xs s Hwf Hidx Hfull Hs).
Qed.

Lemma slots_from_write_index_when_full_witness :
  cycle_start (mkSampler 3 0 false [0; 0; 0])
  /\ getMaxSampleCount (mkSampler 3 0 false [0; 0; 0])
     <= Z.of_nat (length [1; 2; 3; 4; 5])
  /\ exists s,
       storeSamples [1; 2; 3; 4; 5] (mkSampler 3 0 false [0; 0; 0]) = Ok s
       /\ drop (Z.to_nat (mSampleIndex s)) (mSamples s)
          ++ take (Z.to_nat (mSampleIndex s)) (mSamples s)
          = recent (getMaxSampleCount (mkSampler 3 0 false [0; 0; 0]))
              [1; 2; 3; 4; 5].
Proof.
  assert (Hstart : cycle_start (mkSampler 3 0 false [0; 0; 0])).
  { apply (after_construction (fun _ => 77) 3); [concrete | reflexivity]. }
  assert (Hfull : getMaxSampleCount (mkSampler 3 0 false [0; 0; 0])
                  <= Z.of_nat (length [1; 2; 3; 4; 5])) by concrete.
  split; [exact Hstart|]. split; [exact Hfull|].
  exact (slots_from_write_index_when_full _ [1; 2; 3; 4; 5] Hstart Hfull).
Defined.

(** ** Further properties: statistics of [Sampler<int>] *)

Lemma slot_sum_permutation (l1 l2 : list Z) :
  l1 ≡ₚ l2 -> slot_sum l1 = slot_sum l2.
Proof. induction 1; simpl; lia. Qed.

(** A sum of [length l] values between [lo] and [hi]. *)
Lemma slot_sum_between (l : list Z) (lo hi : Z) :
  (forall x, x ∈ l -> lo <= x <= hi) ->
  Z.of_nat (length l) * lo <= slot_sum l <= Z.of_nat (length l) * hi.
Proof.
  induction l as [|y l IH]; intros Hall; simpl length; simpl slot_sum; [lia|].
  pose proof (Hall y ltac:(left)) as Hy.
  assert (Hl : forall x, x ∈ l -> lo <= x <= hi)
    by (intros x Hx; apply Hall; now right).
  specialize (IH Hl). lia.
Qed.

(** The truncated quotient of such a sum by the number of values. *)
Lemma quot_between (sum n lo hi : Z) :
  0 < n -> n * lo <= sum <= n * hi -> lo <= Z.quot sum n <= hi.
Proof.
  intros Hn Hsum.
  pose proof (Z.quot_rem' sum n) as Hqr.
  pose proof (Z.rem_bound_abs sum n ltac:(lia)) as Habs.
  assert (Hr : -n < Z.rem sum n < n) by lia.
  assert (Hsign : (0 <= sum -> 0 <= Z.rem sum n)
                  /\ (sum <= 0 -> Z.rem sum n <= 0)).
  { split; intros; [apply Z.rem_nonneg | apply Z.rem_nonpos]; lia. }
  split.
  - destruct (Z.le_gt_cases lo (Z.quot sum n)) as [|Hlt]; [assumption|].
    assert (n * (Z.quot sum n + 1) <= n * lo)
      by (apply Z.mul_le_mono_nonneg_l; lia).
    lia.
  - destruct (Z.le_gt_cases (Z.quot sum n) hi) as [|Hlt]; [assumption|].
    assert (n * (hi + 1) <= n * Z.quot sum n)
      by (apply Z.mul_le_mono_nonneg_l; lia).
    lia.
Qed.

Lemma first_maximum_is_maximum l k v : first_maximum l k v -> maximum_of l v.
Proof.
  intros (Hk & Hmax & _). split; [exact (list_elem_of_lookup_2 l k v Hk)|].
  intros x Hx. apply list_elem_of_lookup_1 in Hx as [j Hj]. exact (Hmax j x Hj).
Qed.

Lemma first_minimum_is_minimum l k v : first_minimum l k v -> minimum_of l v.
Proof.
  intros (Hk & Hmin & _). split; [exact (list_elem_of_lookup_2 l k v Hk)|].
  intros x Hx. apply list_elem_of_lookup_1 in Hx as [j Hj]. exact (Hmin j x Hj).
Qed.

Lemma maximum_of_permutation l1 l2 v :
  l1 ≡ₚ l2 -> maximum_of l1 v -> maximum_of l2 v.
Proof.
  intros Hp [Hin Hmax]. split; [now rewrite <- Hp|].
  intros x Hx. apply Hmax. now rewrite Hp.
Qed.

Lemma minimum_of_permutation l1 l2 v :
  l1 ≡ₚ l2 -> minimum_of l1 v -> minimum_of l2 v.
Proof.
  intros Hp [Hin Hmin]. split; [now rewrite <- Hp|].
  intros x Hx. apply Hmin. now rewrite Hp.
Qed.

(** What the three statistics compute on the counted slots of a well-formed
    buffer that holds a sample. *)
Lemma statistics_of_counted_slots (s : Sampler Z) :
  wf s -> 0 < getSampleCount s ->
  let slots := take (Z.to_nat (getSampleCount s)) (mSamples s) in
  exists high low,
    getAverage s
    = Ok (Z.quot (CInt.wrap (slot_sum slots)) (getSampleCount s))
    /\ getHighest s = Ok high /\ maximum_of slots high
    /\ getLowest s = Ok low /\ minimum_of slots low.
Proof.
  intros Hwf Hpos slots.
  pose proof (getSampleCount_bounds s Hwf) as Hcount.
  destruct Hwf as (Hsize & Hidx & Hlen).
  destruct (lookup_lt_is_Some_2 (mSamples s) 0) as [a0 H0]; [lia|].
  assert (Hn : exists n, Z.to_nat (getSampleCount s) = S n
                         /\ (n < length (mSamples s))%nat).
  { exists (Z.to_nat (getSampleCount s - 1)). lia. }
  destruct Hn as (n & Hn & Hlt).
  destruct (scan_highest (mSamples s) a0 H0 n Hlt) as [kh Hhigh].
  destruct (scan_lowest (mSamples s) a0 H0 n Hlt) as [kl Hlow].
  apply first_maximum_is_maximum in Hhigh.
  apply first_minimum_is_minimum in Hlow.
  subst slots. rewrite Hn. eexists _, _.
  split; [|split; [|split; [exact Hhigh|split; [|exact Hlow]]]].
  - unfold getAverage.
    rewrite (for_upto_read plus (mSamples s) (getSampleCount s) zero) by lia.
    cbn [mbind outcome_bind over plus zero int_SampleType].
    change 0 with (CInt.wrap 0) at 1.
    rewrite foldl_add_wrap, div_by_count, Hn by exact Hpos. reflexivity.
  - unfold getHighest. rewrite (read_Some (mSamples s) 0 a0) by (done || lia).
    cbn [mbind outcome_bind].
    rewrite (for_upto_read (fun highest x => if less highest x then x else highest))
      by lia.
    now rewrite Hn.
  - unfold getLowest. rewrite (read_Some (mSamples s) 0 a0) by (done || lia).
    cbn [mbind outcome_bind].
    rewrite (for_upto_read (fun lowest x => if greater lowest x then x else lowest))
      by lia.
    now rewrite Hn.
Qed.

(** After a run that starts a fill cycle, the counted slots hold the retained
    samples and there is at least one as soon as the run is not empty. *)
Lemma counted_slots_after_run (s0 : Sampler Z) (xs : list Z) :
  cycle_start s0 -> xs <> [] ->
  exists s,
    storeSamples xs s0 = Ok s /\ wf s
    /\ getSampleCount s = Z.min (Z.of_nat (length xs)) (getMaxSampleCount s0)
    /\ 0 < getSampleCount s
    /\ take (Z.to_nat (getSampleCount s)) (mSamples s)
       ≡ₚ recent (getMaxSampleCount s0) xs.
Proof.
  intros Hstart Hne.
  destruct (cycle_start_inv s0 Hstart) as (Hwf & Hidx & Hflag).
  destruct (storeSamples_wf xs s0 Hwf) as (s & Hs & Hwfs & _).
  pose proof (getSampleCount_after_run s0 xs s Hwf Hidx Hflag Hs) as Hcount.
  exists s. split; [exact Hs|]. split; [exact Hwfs|].
  split; [exact Hcount|]. split.
  - rewrite Hcount. destruct Hwf as (Hsize & _).
    destruct xs; [congruence|]. simpl length. lia.
  - exact (counted_slots_recent s0 xs s Hwf Hidx Hflag Hs).
Qed.

(** X8.  After any non-empty run of insertions counted from construction or
    from the last [clear()], [getAverage] is the average of the samples the
    buffer retains, the last [capacity] of the run or all of them while
    there are fewer: their sum (reduced to an [int]) divided by their number,
    truncated toward zero.  Slots not written in this cycle do not count. *)
Theorem getAverage_recent_samples (s0 : Sampler Z) (xs : list Z) :
  cycle_start s0 -> xs <> [] ->
  exists s,
    storeSamples xs s0 = Ok s
    /\ getAverage s
       = Ok (Z.quot (CInt.wrap (slot_sum (recent (getMaxSampleCount s0) xs)))
               (Z.min (Z.of_nat (length xs)) (getMaxSampleCount s0))).
Proof.
  intros Hstart Hne.
  destruct (counted_slots_after_run s0 xs Hstart Hne)
    as (s & Hs & Hwfs & Hcount & Hpos & Hperm).
  destruct (statistics_of_counted_slots s Hwfs Hpos) as (_ & _ & Havg & _).
  exists s. split; [exact Hs|].
  now rewrite Havg, (slot_sum_permutation _ _ Hperm), Hcount.
Qed.

Lemma getAverage_recent_samples_witness :
  cycle_start (clear (mkSampler 3 0 true [70; 80; 90]))
  /\ [1; 2; 3; 4; 10] <> []
  /\ exists s,
       storeSamples [1; 2; 3; 4; 10] (clear (mkSampler 3 0 true [70; 80; 90]))
       = Ok s
       /\ getAverage s
          = Ok (Z.quot
                  (CInt.wrap
                     (slot_sum
                        (recent
                           (getMaxSampleCount
                              (clear (mkSampler 3 0 true [70; 80; 90])))
                           [1; 2; 3; 4; 10])))
                  (Z.min (Z.of_nat (length [1; 2; 3; 4; 10]))
                     (getMaxSampleCount
                        (clear (mkSampler 3 0 true [70; 80; 90]))))).
Proof.
  assert (Hstart : cycle_start (clear (mkSampler 3 0 true [70; 80; 90]))).
  { apply after_clear. concrete. }
  assert (Hne : [1; 2; 3; 4; 10] <> []) by discriminate.
  split; [exact Hstart|]. split; [exact Hne|].
  exact (getAverage_recent_samples _ [1; 2; 3; 4; 10] Hstart Hne).
Defined.

(** X9.  After any non-empty run of insertions counted from construction or
    from the last [clear()], [getHighest] and [getLowest] return the largest
    and the smallest of the samples the buffer retains. *)
Theorem extrema_recent_samples (s0 : Sampler Z) (xs : list Z) :
  cycle_start s0 -> xs <> [] ->
  exists s high low,
    storeSamples xs s0 = Ok s
    /\ getHighest s = Ok high
    /\ maximum_of (recent (getMaxSampleCount s0) xs) high
    /\ getLowest s = Ok low
    /\ minimum_of (recent (getMaxSampleCount s0) xs) low.
Proof.
  intros Hstart Hne.
  destruct (counted_slots_after_run s0 xs Hstart Hne)
    as (s & Hs & Hwfs & Hcount & Hpos & Hperm).
  destruct (statistics_of_counted_slots s Hwfs Hpos)
    as (high & low & _ & Hhigh & Hmax & Hlow & Hmin).
  exists s, high, low. split; [exact Hs|]. split; [exact Hhigh|].
  split; [exact (maximum_of_permutation _ _ _ Hperm Hmax)|].
  split; [exact Hlow|].
  exact (minimum_of_permutation _ _ _ Hperm Hmin).
Qed.

Lemma extrema_recent_samples_witness :
  cycle_start (mkSampler 3 0 false [0; 0; 0])
  /\ [9; 1; 5; 3; 4] <> []
  /\ exists s high low,
       storeSamples [9; 1; 5; 3; 4] (mkSampler 3 0 false [0; 0; 0]) = Ok s
       /\ getHighest s = Ok high
       /\ maximum_of
            (recent (getMaxSampleCount (mkSampler 3 0 false [0; 0; 0]))
               [9; 1; 5; 3; 4]) high
       /\ getLowest s = Ok low
       /\ minimum_of
            (recent (getMaxSampleCount (mkSampler 3 0 false [0; 0; 0]))
               [9; 1; 5; 3; 4]) low.
Proof.
  assert (Hstart : cycle_start (mkSampler 3 0 false [0; 0; 0])).
  { apply (after_construction (fun _ => 77) 3); [concrete | reflexivity]. }
  assert (Hne : [9; 1; 5; 3; 4] <> []) by discriminate.
  split; [exact Hstart|]. split; [exact Hne|].
  exact (extrema_recent_samples _ [9; 1; 5; 3; 4] Hstart Hne).
Defined.

(** X10.  On every well-formed buffer that holds a sample, the three of
    [getLowest], [getLatest] and [getHighest] return, and the latest sample
    lies between the lowest and the highest. *)
Theorem lowest_latest_highest_ordered (s : Sampler Z) :
  wf s -> 0 < getSampleCount s ->
  exists low latest high,
    getLowest s = Ok low
    /\ getLatest s = Ok latest
    /\ getHighest s = Ok high
    /\ low <= latest <= high.
Proof.
  intros Hwf Hpos.
  destruct (statistics_of_counted_slots s Hwf Hpos)
    as (high & low & _ & Hhigh & [_ Hmax] & Hlow & [_ Hmin]).
  rewrite (getLatest_slot s Hwf).
  destruct Hwf as (Hsize & Hidx & Hlen).
  set (p := if mSampleIndex s =? 0
            then mSampleArraySize s - 1 else mSampleIndex s - 1).
  assert (Hp : 0 <= p < getSampleCount s).
  { subst p. unfold getSampleCount in *.
    destruct (Z.eqb_spec (mSampleIndex s) 0); destruct (mAllSamplesReady s); lia. }
  assert (Hc : getSampleCount s <= mSampleArraySize s).
  { unfold getSampleCount. destruct (mAllSamplesReady s); lia. }
  destruct (lookup_lt_is_Some_2 (mSamples s) (Z.to_nat p)) as [v Hv]; [lia|].
  assert (Hin : v ∈ take (Z.to_nat (getSampleCount s)) (mSamples s)).
  { apply elem_of_take. exists (Z.to_nat p). split; [exact Hv | lia]. }
  exists low, v, high. split; [exact Hlow|].
  split; [apply read_Some; [lia | exact Hv]|]. split; [exact Hhigh|].
  split; [exact (Hmin v Hin) | exact (Hmax v Hin)].
Qed.

Lemma lowest_latest_highest_ordered_witness :
  wf (mkSampler 3 1 true [4; 9; 2])
  /\ 0 < getSampleCount (mkSampler 3 1 true [4; 9; 2])
  /\ exists low latest high,
       getLowest (mkSampler 3 1 true [4; 9; 2]) = Ok low
       /\ getLatest (mkSampler 3 1 true [4; 9; 2]) = Ok latest
       /\ getHighest (mkSampler 3 1 true [4; 9; 2]) = Ok high
       /\ low <= latest <= high.
Proof.
  assert (Hwf : wf (mkSampler 3 1 true [4; 9; 2])) by concrete.
  assert (Hpos : 0 < getSampleCount (mkSampler 3 1 true [4; 9; 2])) by concrete.
  split; [exact Hwf|]. split; [exact Hpos|].
  exact (lowest_latest_highest_ordered _ Hwf Hpos).
Defined.

(** X11.  On every well-formed buffer that holds a sample and whose counted
    slots add up to a value that fits in an [int], the average lies between
    the lowest and the highest sample. *)
Theorem average_between_extrema (s : Sampler Z) :
  wf s -> 0 < getSampleCount s ->
  CInt.in_range
    (slot_sum (take (Z.to_nat (getSampleCount s)) (mSamples s))) ->
  exists low average high,
    getLowest s = Ok low
    /\ getAverage s = Ok average
    /\ getHighest s = Ok high
    /\ low <= average <= high.
Proof.
  intros Hwf Hpos Hfit.
  destruct (statistics_of_counted_slots s Hwf Hpos)
    as (high & low & Havg & Hhigh & [_ Hmax] & Hlow & [_ Hmin]).
  pose proof (getSampleCount_bounds s Hwf) as Hcount.
  destruct Hwf as (Hsize & Hidx & Hlen).
  eexists low, _, high. split; [exact Hlow|]. split; [exact Havg|].
  split; [exact Hhigh|].
  rewrite wrap_in_range by exact Hfit.
  apply quot_between; [exact Hpos|].
  pose proof (slot_sum_between
                (take (Z.to_nat (getSampleCount s)) (mSamples s)) low high)
    as Hsum.
  rewrite length_take_le, Z2Nat.id in Hsum by lia.
  apply Hsum. intros x Hx. split; [exact (Hmin x Hx) | exact (Hmax x Hx)].
Qed.

Lemma average_between_extrema_witness :
  wf (mkSampler 3 2 false [-7; 2; 0])
  /\ 0 < getSampleCount (mkSampler 3 2 false [-7; 2; 0])
  /\ CInt.in_range
       (slot_sum
          (take (Z.to_nat (getSampleCount (mkSampler 3 2 false [-7; 2; 0])))
             (mSamples (mkSampler 3 2 false [-7; 2; 0]))))
  /\ exists low average high,
       getLowest (mkSampler 3 2 false [-7; 2; 0]) = Ok low
       /\ getAverage (mkSampler 3 2 false [-7; 2; 0]) = Ok average
       /\ getHighest (mkSampler 3 2 false [-7; 2; 0]) = Ok high
       /\ low <= average <= high.
Proof.
  assert (Hwf : wf (mkSampler 3 2 false [-7; 2; 0])) by concrete.
  assert (Hpos : 0 < getSampleCount (mkSampler 3 2 false [-7; 2; 0]))
    by concrete.
  assert (Hfit : CInt.in_range
                   (slot_sum
                      (take (Z.to_nat
                               (getSampleCount (mkSampler 3 2 false [-7; 2; 0])))
                         (mSamples (mkSampler 3 2 false [-7; 2; 0])))))
    by (vm_compute; split; discriminate).
  split; [exact Hwf|]. split; [exact Hpos|]. split; [exact Hfit|].
  exact (average_between_extrema _ Hwf Hpos Hfit).
Defined.

(** Without room for the sum the average leaves that range: two slots
    holding [INT_MAX] average to -1. *)
Example average_of_wrapped_sum :
  getAverage (mkSampler 2 0 true [CInt.INT_MAX; CInt.INT_MAX]) = Ok (-1)
  /\ getLowest (mkSampler 2 0 true [CInt.INT_MAX; CInt.INT_MAX])
     = Ok CInt.INT_MAX.
Proof. split; reflexivity. Qed.

(** ** Further properties: the edges of the index and of the capacity *)

(** X12.  A buffer constructed with capacity 0 has no slot: whatever the
    sample, [storeSample] writes outside the array; [getLatest],
    [getHighest] and [getLowest] read outside it; and [getSampleNum] takes a
    remainder by zero, whatever the index. *)
Theorem zero_capacity_buffer_unusable {TYPE} `{SampleType TYPE}
    (junk : nat -> TYPE) :
  exists s,
    Sampler_new junk 0 = Ok s
    /\ getSampleCount s = 0
    /\ (forall x, storeSample x s = Undefined OutOfBounds)
    /\ getLatest s = Undefined OutOfBounds
    /\ getHighest s = Undefined OutOfBounds
    /\ getLowest s = Undefined OutOfBounds
    /\ (forall idx, getSampleNum idx s = Undefined DivideByZero).
Proof.
  eexists. split; [apply Sampler_new_ok; lia|]. repeat split.
Qed.

(** X13.  For an index of at least 0, [getSampleNum] returns the content of
    the slot [idx mod capacity]; adding any number of whole capacities to
    the index does not change the answer. *)
Theorem getSampleNum_wraps_from_zero {TYPE} (s : Sampler TYPE) (idx k : Z) :
  wf s -> 0 <= idx -> 0 <= k ->
  exists v,
    mSamples s !! Z.to_nat (idx mod getMaxSampleCount s) = Some v
    /\ getSampleNum idx s = Ok v
    /\ getSampleNum (idx + k * getMaxSampleCount s) s = Ok v.
Proof.
  intros Hwf Hidx Hk. unfold getMaxSampleCount.
  rewrite !(getSampleNum_slot s _ Hwf) by (destruct Hwf; nia).
  rewrite Z_mod_plus_full.
  destruct Hwf as (Hsize & Hi & Hlen).
  pose proof (Z.mod_pos_bound idx (mSampleArraySize s) ltac:(lia)) as Hr.
  destruct (lookup_lt_is_Some_2 (mSamples s)
              (Z.to_nat (idx mod mSampleArraySize s))) as [v Hv]; [lia|].
  exists v. split; [exact Hv|].
  split; apply read_Some; try lia; exact Hv.
Qed.

Lemma getSampleNum_wraps_from_zero_witness :
  wf (mkSampler 3 1 true [4; 9; 2])
  /\ 0 <= 5 /\ 0 <= 2
  /\ exists v,
       mSamples (mkSampler 3 1 true [4; 9; 2])
         !! Z.to_nat (5 mod getMaxSampleCount (mkSampler 3 1 true [4; 9; 2]))
       = Some v
       /\ getSampleNum 5 (mkSampler 3 1 true [4; 9; 2]) = Ok v
       /\ getSampleNum
            (5 + 2 * getMaxSampleCount (mkSampler 3 1 true [4; 9; 2]))
            (mkSampler 3 1 true [4; 9; 2]) = Ok v.
Proof.
  assert (Hwf : wf (mkSampler 3 1 true [4; 9; 2])) by concrete.
  assert (Hidx : 0 <= 5) by lia.
  assert (Hk : 0 <= 2) by lia.
  split; [exact Hwf|]. split; [exact Hidx|]. split; [exact Hk|].
  exact (getSampleNum_wraps_from_zero _ 5 2 Hwf Hidx Hk).
Defined.

(** X14.  For an index below 0, [getSampleNum] reads slot 0 when the index
    is a multiple of the capacity, and reads before the array otherwise: the
    remainder of a negative index is never positive. *)
Theorem getSampleNum_below_zero_cases {TYPE} (s : Sampler TYPE) (idx : Z) :
  wf s -> idx < 0 ->
  getSampleNum idx s
  = if Z.rem idx (getMaxSampleCount s) =? 0
    then read (mSamples s) 0
    else Undefined OutOfBounds.
Proof.
  intros (Hsize & Hidx & Hlen) Hneg. unfold getSampleNum, getMaxSampleCount, CInt.rem.
  destruct (Z.eqb_spec (mSampleArraySize s) 0); [lia|].
  destruct (Z.eqb_spec (mSampleArraySize s) (-1)); [lia|].
  rewrite andb_false_r. cbn [mbind outcome_bind].
  destruct (Z.eqb_spec (Z.rem idx (mSampleArraySize s)) 0) as [->|Hrem];
    [reflexivity|].
  apply read_negative.
  pose proof (Z.rem_nonpos idx (mSampleArraySize s) ltac:(lia) ltac:(lia)).
  lia.
Qed.

Lemma getSampleNum_below_zero_cases_witness :
  wf (mkSampler 3 1 true [4; 9; 2])
  /\ -4 < 0
  /\ getSampleNum (-4) (mkSampler 3 1 true [4; 9; 2])
     = if Z.rem (-4) (getMaxSampleCount (mkSampler 3 1 true [4; 9; 2])) =? 0
       then read (mSamples (mkSampler 3 1 true [4; 9; 2])) 0
       else Undefined OutOfBounds.
Proof.
  assert (Hwf : wf (mkSampler 3 1 true [4; 9; 2])) by concrete.
  assert (Hneg : -4 < 0) by lia.
  split; [exact Hwf|]. split; [exact Hneg|].
  exact (getSampleNum_below_zero_cases _ (-4) Hwf Hneg).
Defined.
